(** * Copilot usage API: credit calculation and usage resolution

    A shallow embedding of [app.py]: the text rules that price one message
    ([is_palindrome], [extract_words], [calculate_third_vowel_cost],
    [calculate_char_cost], [calculate_word_costs], [calculate_credits]) and
    the resolution of a batch of messages against the reports service
    ([fetch_report], [process_report], [process_message],
    [process_messages]).

    Python values are modelled as they are at run time: [str] is a sequence
    of code points, [int] is unbounded, [float] is IEEE 754 binary64 with
    round-to-nearest-even, a [dict] is a finite map, an exception is an
    outcome of its own, and the [lru_cache] around [fetch_report] is explicit
    state.  Logging has no effect on any value and is left out, and so are
    [fetch_messages] and the Flask route, which only pass a batch in and
    its result out. *)

From stdpp Require Import gmap strings list.
From Stdlib Require Import ZArith SpecFloat Lia.

#[local] Set Warnings "-register-all".
#[local] Open Scope Z_scope.

(** ** Python floats: binary64 *)

Module Float.

Definition prec : Z := 53.
Definition emax : Z := 1024.

Definition add : spec_float -> spec_float -> spec_float := SFadd prec emax.
Definition sub : spec_float -> spec_float -> spec_float := SFsub prec emax.
Definition mul : spec_float -> spec_float -> spec_float := SFmul prec emax.
Definition abs : spec_float -> spec_float := SFabs.
Definition leb : spec_float -> spec_float -> bool := SFleb.
Definition eqb : spec_float -> spec_float -> bool := SFeqb.

(** [float(z)] for an int: the nearest double, ties to even. *)
Definition of_int (z : Z) : spec_float := binary_normalize prec emax z 0 false.

(** The double nearest to the fraction [n / d], ties to even.  This is how
    a decimal literal such as [0.05] is read ([of_ratio 5 100]) and how
    [round] turns its decimal result back into a float. *)
Definition of_ratio (n : Z) (d : positive) : spec_float :=
  match n with
  | Z0 => S754_zero false
  | Zpos p => SFdiv prec emax (S754_finite false p 0) (S754_finite false d 0)
  | Zneg p => SFdiv prec emax (S754_finite true p 0) (S754_finite false d 0)
  end.

Definition inf : spec_float := S754_infinity false.

Definition is_finite (x : spec_float) : bool :=
  match x with
  | S754_zero _ | S754_finite _ _ _ => true
  | S754_infinity _ | S754_nan => false
  end.

Definition is_zero (x : spec_float) : bool :=
  match x with
  | S754_zero _ => true
  | _ => false
  end.

(** Exact comparison of a float with an int, as Python compares them
    (no conversion of the int to a float). *)
Definition compare_int (x : spec_float) (z : Z) : option comparison :=
  match x with
  | S754_nan => None
  | S754_infinity s => Some (if s then Lt else Gt)
  | S754_zero _ => Some (0 ?= z)
  | S754_finite s m e =>
      let v := cond_Zopp s (Zpos m) in
      Some (if 0 <=? e then v * 2 ^ e ?= z else v ?= z * 2 ^ (- e))
  end.

(** The integer nearest to [a / b] for [b > 0], ties to the even one. *)
Definition div_half_even (a b : Z) : Z :=
  let q := a / b in
  let r := a mod b in
  match 2 * r ?= b with
  | Lt => q
  | Gt => q + 1
  | Eq => if Z.even q then q else q + 1
  end.

(** [round(x, ndigits)] on a float, for [0 <= ndigits]: the exact value of
    [x] is rounded to [ndigits] decimals, ties to even, and the decimal
    result is read back as the nearest double; the sign of [x] is kept on
    a zero result, and infinities and NaN round to themselves. *)
Definition round (x : spec_float) (ndigits : Z) : spec_float :=
  match x with
  | S754_finite s m e =>
      let p := 10 ^ ndigits in
      let n := if 0 <=? e then Zpos m * 2 ^ e * p
               else div_half_even (Zpos m * p) (2 ^ (- e)) in
      match n with
      | Z0 => S754_zero s
      | _ => of_ratio (cond_Zopp s n) (Z.to_pos p)
      end
  | _ => x
  end.

End Float.

(** ** Python numbers: [int] and [float] with their mixed arithmetic *)

Inductive number :=
  | PyInt (z : Z)
  | PyFloat (f : spec_float).

#[global] Instance number_inhabited : Inhabited number := populate (PyInt 0).

Definition to_float (x : number) : spec_float :=
  match x with
  | PyInt z => Float.of_int z
  | PyFloat f => f
  end.

Definition py_add (x y : number) : number :=
  match x, y with
  | PyInt a, PyInt b => PyInt (a + b)
  | _, _ => PyFloat (Float.add (to_float x) (to_float y))
  end.

Definition py_mul (x y : number) : number :=
  match x, y with
  | PyInt a, PyInt b => PyInt (a * b)
  | _, _ => PyFloat (Float.mul (to_float x) (to_float y))
  end.

Definition py_compare (x y : number) : option comparison :=
  match x, y with
  | PyInt a, PyInt b => Some (a ?= b)
  | PyFloat f, PyInt b => Float.compare_int f b
  | PyInt a, PyFloat g => option_map CompOpp (Float.compare_int g a)
  | PyFloat f, PyFloat g => SFcompare f g
  end.

(** [x > y], [x <= y] and [x == y] *)
Definition py_gt (x y : number) : bool :=
  match py_compare x y with
  | Some Gt => true
  | _ => false
  end.

Definition py_le (x y : number) : bool :=
  match py_compare x y with
  | Some Lt | Some Eq => true
  | _ => false
  end.

Definition py_eq (x y : number) : bool :=
  match py_compare x y with
  | Some Eq => true
  | _ => false
  end.

(** [max(x, y)]: the first argument is kept unless the second is greater. *)
Definition py_max (x y : number) : number :=
  if py_gt y x then y else x.

(** [round(x, ndigits)] for [0 <= ndigits]: an int is returned as it is. *)
Definition py_round (x : number) (ndigits : Z) : number :=
  match x with
  | PyInt z => PyInt z
  | PyFloat f => PyFloat (Float.round f ndigits)
  end.

(** *** The builtin [sum]

    [sum] starts from the int [0] and adds the items from left to right.
    CPython before 3.12 adds floats one by one; from 3.12 on the float
    accumulator carries Neumaier's compensation term, which is added once
    the items are exhausted.  Both are modelled. *)

Variant sum_impl := PlainSum | CompensatedSum.

Section Sum.

Variable impl : sum_impl.

Fixpoint sum_float (f_result c : spec_float) (items : list number) : spec_float :=
  match items with
  | [] =>
      match impl with
      | PlainSum => f_result
      | CompensatedSum =>
          if negb (Float.is_zero c) && Float.is_finite c
          then Float.add f_result c else f_result
      end
  | PyFloat x :: rest =>
      match impl with
      | PlainSum => sum_float (Float.add f_result x) c rest
      | CompensatedSum =>
          let t := Float.add f_result x in
          let c' :=
            if Float.leb (Float.abs x) (Float.abs f_result)
            then Float.add c (Float.add (Float.sub f_result t) x)
            else Float.add c (Float.add (Float.sub x t) f_result) in
          sum_float t c' rest
      end
  | PyInt k :: rest => sum_float (Float.add f_result (Float.of_int k)) c rest
  end.

Fixpoint sum_int (i_result : Z) (items : list number) : number :=
  match items with
  | [] => PyInt i_result
  | PyInt k :: rest => sum_int (i_result + k) rest
  | PyFloat x :: rest =>
      PyFloat (sum_float (Float.add (Float.of_int i_result) x) (S754_zero false) rest)
  end.

Definition py_sum (items : list number) : number := sum_int 0 items.

End Sum.

(** ** Python strings: sequences of code points *)

Abbreviation char := N (only parsing).
Abbreviation str := (list N) (only parsing).

(** An ASCII string literal, as the [str] of its characters. *)
Fixpoint literal (s : string) : str :=
  match s with
  | EmptyString => []
  | String a s' => Ascii.N_of_ascii a :: literal s'
  end.

#[local] Open Scope N_scope.

Definition is_upper (c : char) : bool := (65 <=? c) && (c <=? 90).
Definition is_lower (c : char) : bool := (97 <=? c) && (c <=? 122).
Definition is_digit (c : char) : bool := (48 <=? c) && (c <=? 57).

(** [c.lower()].  Outside ASCII only the two code points whose lower case
    contains an ASCII letter are spelled out (U+0130 and the Kelvin sign
    U+212A); every other code point above 127 lowers to code points above
    127, which is all [is_palindrome] needs since it strips them next. *)
Definition lower_char (c : char) : str :=
  if is_upper c then [c + 32]
  else if c =? 304 then [105; 775]
  else if c =? 8490 then [107]
  else [c].

Definition lower (text : str) : str := flat_map lower_char text.

(** [re.sub(r'[^a-zA-Z0-9]', '', text)] *)
Definition sub_non_alnum (text : str) : str :=
  List.filter (fun c => is_lower c || is_upper c || is_digit c) text.

(** [WORD_PATTERN = r"[a-zA-Z'-]+"]: one character of the class *)
Definition word_char (c : char) : bool :=
  is_lower c || is_upper c || (c =? 39) || (c =? 45).

(** [re.findall(WORD_PATTERN, text)]: the maximal runs of class characters,
    left to right; [cur] is the run being read, last character first. *)
Fixpoint findall_words (cur : str) (text : str) : list str :=
  match text with
  | [] => match cur with [] => [] | _ => [rev cur] end
  | c :: rest =>
      if word_char c then findall_words (c :: cur) rest
      else match cur with
           | [] => findall_words [] rest
           | _ => rev cur :: findall_words [] rest
           end
  end.

#[local] Close Scope N_scope.

Definition VOWELS : str := literal "aeiouAEIOU".

(** [char in VOWELS] *)
Definition in_str (c : char) (s : str) : bool := existsb (N.eqb c) s.

(** [enumerate(items, start)] *)
Fixpoint enumerate {A : Type} (items : list A) (start : Z) : list (Z * A) :=
  match items with
  | [] => []
  | x :: rest => (start, x) :: enumerate rest (start + 1)
  end.

(** ** Python values, as JSON decodes them *)

Inductive pyval :=
  | VNone
  | VBool (b : bool)
  | VNum (x : number)
  | VStr (s : list N)
  | VList (items : list pyval)
  | VDict (d : gmap string pyval).

(** Truth value of an object, as [if obj:] tests it. *)
Definition truthy (v : pyval) : bool :=
  match v with
  | VNone => false
  | VBool b => b
  | VNum (PyInt z) => negb (z =? 0)
  | VNum (PyFloat f) => negb (Float.is_zero f)
  | VStr s => match s with [] => false | _ => true end
  | VList items => match items with [] => false | _ => true end
  | VDict d => negb (Nat.eqb (size d) 0)
  end.

(** Lists and dicts cannot be hashed. *)
Definition hashable (v : pyval) : bool :=
  match v with
  | VList _ | VDict _ => false
  | _ => true
  end.

(** ** Credit rules *)

(** [CREDIT_COSTS] *)
Definition CREDIT_COSTS : gmap string number :=
  list_to_map
    [ ("base", PyInt 1);
      ("char", PyFloat (Float.of_ratio 5 100));
      ("third_vowel", PyFloat (Float.of_ratio 3 10));
      ("length_penalty_threshold", PyInt 100);
      ("length_penalty", PyInt 5);
      ("unique_word_bonus", PyInt (-2)) ].

Definition is_palindrome (text : str) : bool :=
  let cleaned_text := sub_non_alnum (lower text) in
  bool_decide (cleaned_text = rev cleaned_text).

Definition extract_words (text : str) : list str := findall_words [] text.

(** The word-length categories of [calculate_word_costs]; the dictionaries
    [category_costs] and [ranges] are keyed by them, and [ranges.items()]
    yields them in the order they are written. *)
Variant category := short | medium | long.

Definition category_costs (c : category) : number :=
  match c with
  | short => PyFloat (Float.of_ratio 1 10)
  | medium => PyFloat (Float.of_ratio 2 10)
  | long => PyFloat (Float.of_ratio 3 10)
  end.

Definition ranges_items : list (category * (number * number)) :=
  [ (short, (PyInt 1, PyInt 3));
    (medium, (PyInt 4, PyInt 7));
    (long, (PyInt 8, PyFloat Float.inf)) ].

(** [r[0] <= len(word) <= r[1]] *)
Definition in_range (r : number * number) (word : str) : bool :=
  py_le (fst r) (PyInt (Z.of_nat (length word)))
  && py_le (PyInt (Z.of_nat (length word))) (snd r).

Section Credits.

Variable impl : sum_impl.

Definition calculate_third_vowel_cost (text : str) : number :=
  py_sum impl
    (map (fun _ => CREDIT_COSTS !!! "third_vowel")
       (List.filter (fun ic => (fst ic mod 3 =? 0) && in_str (snd ic) VOWELS)
          (enumerate text 1))).

Definition calculate_char_cost (message_length : Z) : number :=
  py_mul (CREDIT_COSTS !!! "char") (PyInt message_length).

(** [sum(1 for word in words if r[0] <= len(word) <= r[1])] *)
Definition words_in_range (words : list str) (r : number * number) : number :=
  py_sum impl (map (fun _ => PyInt 1) (List.filter (in_range r) words)).

Definition calculate_word_costs (words : list str) : number :=
  py_sum impl
    (map (fun cr => py_mul (words_in_range words (snd cr)) (category_costs (fst cr)))
       ranges_items).

(** [message_id] is only logged. *)
Definition calculate_credits (message_text : str) (message_id : pyval) : number :=
  let message_length := Z.of_nat (length message_text) in
  let words := extract_words message_text in
  let char_cost := calculate_char_cost message_length in
  let word_costs := calculate_word_costs words in
  let third_vowel_cost := calculate_third_vowel_cost message_text in
  let length_penalty :=
    if py_gt (PyInt message_length) (CREDIT_COSTS !!! "length_penalty_threshold")
    then CREDIT_COSTS !!! "length_penalty" else PyInt 0 in
  let unique_word_bonus :=
    if bool_decide (size (list_to_set words : gset (list N)) = length words)
    then CREDIT_COSTS !!! "unique_word_bonus" else PyInt 0 in
  let total_cost :=
    py_add (py_add (py_add (py_add (py_add
      (CREDIT_COSTS !!! "base")
      char_cost)
      word_costs)
      third_vowel_cost)
      length_penalty)
      unique_word_bonus in
  let total_cost :=
    if is_palindrome message_text then py_mul total_cost (PyInt 2) else total_cost in
  py_max (PyInt 1) (py_round total_cost 2).

End Credits.


(** ** Exceptions and the state of the report cache *)

(** The texts of the exceptions the module raises; the values formatted into
    a text are kept as they are. *)
Variant error_text :=
  | InvalidMessageFormat (message : pyval)  (* f"Invalid message format: {message}" *)
  | MissingKey (key : string)               (* f"Missing key in message: {e}" *)
  | AccessForbidden                         (* "Access to report details is forbidden." *)
  | ServiceUnavailable                      (* "The reports service is currently unavailable." *)
  | UnexpectedError (report_id : pyval)     (* f"Unexpected error for report_id {report_id}." *)
  | RequestFailed (report_id : pyval).      (* f"Failed to fetch report {report_id} due to an HTTP request error." *)

Variant exn :=
  | KeyError (key : string)
  | ValueError (text : error_text)
  | TypeError
  | AttributeError
  | Exception (text : error_text).

Variant outcome (A : Type) :=
  | Return (a : A)
  | Raise (e : exn).
Arguments Return {A} a.
Arguments Raise {A} e.

(** What [lru_cache] keeps for [fetch_report]: the cached results, most
    recently used first, and the counters that [cache_info()] reports. *)
Record lru_cache := {
  entries : list (pyval * pyval);
  hits : nat;
  misses : nat
}.

Definition empty_cache : lru_cache := {| entries := []; hits := 0; misses := 0 |}.

(** A computation that may raise and that reads and updates the cache. *)
Definition M (A : Type) : Type := lru_cache -> outcome A * lru_cache.

#[global] Instance M_ret : MRet M := fun A a st => (Return a, st).
#[global] Instance M_bind : MBind M := fun A B f m st =>
  match m st with
  | (Return a, st') => f a st'
  | (Raise e, st') => (Raise e, st')
  end.

Definition raise {A : Type} (e : exn) : M A := fun st => (Raise e, st).

(** [try: body except KeyError as e: handler] *)
Definition except_KeyError {A : Type} (body : M A) (handler : string -> M A) : M A :=
  fun st =>
    match body st with
    | (Raise (KeyError key), st') => handler key st'
    | r => r
    end.

(** [d[key]] *)
Definition getitem (d : gmap string pyval) (key : string) : M pyval :=
  match d !! key with
  | Some v => mret v
  | None => raise (KeyError key)
  end.

(** [obj.get(key, dflt)]: only a dict has the method. *)
Definition get_method (obj : pyval) (key : string) (dflt : pyval) : M pyval :=
  match obj with
  | VDict d => mret (default dflt (d !! key))
  | _ => raise AttributeError
  end.

(** ** The reports service *)

(** What [requests.get(report_url)] comes back with: a response, with its
    status code and its body as [response.json()] decodes it ([None] when
    the body is not JSON), or a [RequestException]. *)
Variant http_result :=
  | Response (status_code : Z) (json : option pyval)
  | RequestException.

Definition maxsize : nat := 100.

(** Whether two arguments of [fetch_report] are the same cache key.  An int
    or a str is its own key; any other argument is keyed as a one-element
    tuple, so that it never matches an int or a str, and [True] matches
    [1.0].  The NaN that JSON decoding yields is one object and matches
    itself. *)
Definition same_key (k1 k2 : pyval) : bool :=
  match k1, k2 with
  | VNum (PyInt a), VNum (PyInt b) => a =? b
  | VStr s, VStr t => bool_decide (s = t)
  | VNone, VNone => true
  | VBool a, VBool b => bool_decide (a = b)
  | VBool a, VNum (PyFloat f) | VNum (PyFloat f), VBool a =>
      py_eq (PyInt (if a then 1 else 0)) (PyFloat f)
  | VNum (PyFloat S754_nan), VNum (PyFloat S754_nan) => true
  | VNum (PyFloat f), VNum (PyFloat g) => Float.eqb f g
  | _, _ => false
  end.

(** The cached result for [key], with the entries left once it is taken out. *)
Fixpoint cache_find (key : pyval) (es : list (pyval * pyval))
  : option ((pyval * pyval) * list (pyval * pyval)) :=
  match es with
  | [] => None
  | kv :: rest =>
      if same_key key (fst kv) then Some (kv, rest)
      else match cache_find key rest with
           | Some (hit, rest') => Some (hit, kv :: rest')
           | None => None
           end
  end.

Section Service.

Variable impl : sum_impl.

(** The reports service: the outcome of the GET request on
    [f"https://owpublic.blob.core.windows.net/tech-task/reports/{report_id}"],
    as a function of the [report_id] formatted into the URL. *)
Variable requests_get : pyval -> http_result.

(** The body of [fetch_report], under the decorator. *)
Definition fetch_report_wrapped (report_id : pyval) : outcome pyval :=
  match requests_get report_id with
  | Response status_code json =>
      if status_code =? 200 then
        match json with
        | Some report => Return report
        | None => Raise (Exception (RequestFailed report_id))
        end
      else if status_code =? 404 then Return VNone
      else if status_code =? 403 then Raise (Exception AccessForbidden)
      else if 500 <=? status_code then Raise (Exception ServiceUnavailable)
      else Raise (Exception (UnexpectedError report_id))
  | RequestException => Raise (Exception (RequestFailed report_id))
  end.

(** [fetch_report] as decorated with [lru_cache(maxsize=100)]: a hit
    returns the cached result and makes it the most recent; a miss calls
    the body and caches what it returns, dropping the least recently used
    entry when the cache is full; an exception is not cached. *)
Definition fetch_report (report_id : pyval) : M pyval := fun st =>
  if hashable report_id then
    match cache_find report_id (entries st) with
    | Some (hit, rest) =>
        (Return (snd hit),
         {| entries := hit :: rest; hits := S (hits st); misses := misses st |})
    | None =>
        match fetch_report_wrapped report_id with
        | Return result =>
            (Return result,
             {| entries := take maxsize ((report_id, result) :: entries st);
                hits := hits st; misses := S (misses st) |})
        | Raise e =>
            (Raise e,
             {| entries := entries st; hits := hits st; misses := S (misses st) |})
        end
    end
  else (Raise TypeError, st).

(** [calculate_credits] called on a decoded JSON value: [len] or
    [re.findall] raise [TypeError] on anything but a str. *)
Definition call_calculate_credits (message_text message_id : pyval) : M pyval :=
  match message_text with
  | VStr s => mret (VNum (calculate_credits impl s message_id))
  | _ => raise TypeError
  end.

Definition process_report (report_id message_text message_id : pyval)
  : M (pyval * pyval) :=
  report_data ← fetch_report report_id;
  if truthy report_data then
    name ← get_method report_data "name" VNone;
    credit_cost ← get_method report_data "credit_cost" (VNum (PyInt 0));
    mret (name, credit_cost)
  else
    credits ← call_calculate_credits message_text message_id;
    mret (VNone, credits).

Definition process_message (message : pyval) : M (gmap string pyval) :=
  except_KeyError
    (match message with
     | VDict d =>
         message_id ← getitem d "id";
         timestamp ← getitem d "timestamp";
         let report_id := default VNone (d !! "report_id") in
         '(report_name, credits_used) ←
           (if truthy report_id then
              text ← getitem d "text";
              process_report report_id text message_id
            else
              text ← getitem d "text";
              credits ← call_calculate_credits text message_id;
              mret (VNone, credits));
         let usage_entry : gmap string pyval :=
           <["credits_used" := credits_used]>
             (<["timestamp" := timestamp]>
                (<["message_id" := message_id]> ∅)) in
         mret (if truthy report_name
               then <["report_name" := report_name]> usage_entry
               else usage_entry)
     | _ => raise (ValueError (InvalidMessageFormat message))
     end)
    (fun key => raise (ValueError (MissingKey key))).

Fixpoint process_messages (messages : list pyval) : M (list (gmap string pyval)) :=
  match messages with
  | [] => mret []
  | message :: rest =>
      usage_entry ← process_message message;
      usage_data ← process_messages rest;
      mret (usage_entry :: usage_data)
  end.

End Service.


(** ** Fetching the batch and the [/usage] route *)

(** The texts of the exceptions [fetch_messages] raises. *)
Variant messages_error :=
  | MessagesRequestFailed   (* "Failed to fetch messages due to an HTTP request error." *)
  | MessagesInvalidJSON.    (* "Invalid JSON response from messages API." *)

(** What can be raised around the route: an exception of the resolution
    code above, an [Exception] of [fetch_messages], or a
    [requests.exceptions.RequestException] (an [HTTPError] of
    [raise_for_status] and the [JSONDecodeError] of [response.json()] are
    such exceptions). *)
Variant route_exn :=
  | Resolution (e : exn)
  | MessagesException (text : messages_error)
  | RequestsError.

(** The [try] block of [fetch_messages], on what the GET request on the
    messages URL comes back with: [raise_for_status] raises on a status from
    400 to 599, [response.json()] raises on a body that is not JSON (a
    [RequestException] too, as of requests 2.27), and [.get] exists only on
    a dict. *)
Definition fetch_messages_try (r : http_result) : pyval + route_exn :=
  match r with
  | RequestException => inr RequestsError
  | Response status_code json =>
      if (400 <=? status_code) && (status_code <? 600) then inr RequestsError
      else match json with
           | None => inr RequestsError
           | Some (VDict response_data) =>
               inl (default (VList []) (response_data !! "messages"))
           | Some _ => inr (Resolution AttributeError)
           end
  end.

(** [fetch_messages], with its two [except] clauses in their order. *)
Definition fetch_messages (r : http_result) : pyval + route_exn :=
  match fetch_messages_try r with
  | inr RequestsError => inr (MessagesException MessagesRequestFailed)
  | inr (Resolution (ValueError _)) => inr (MessagesException MessagesInvalidJSON)
  | other => other
  end.

(** Whether [len(v)] is defined; it raises [TypeError] otherwise. *)
Definition sized (v : pyval) : bool :=
  match v with
  | VStr _ | VList _ | VDict _ => true
  | _ => false
  end.

(** What [for message in v] goes through: the items of a list, the
    characters of a str, the keys of a dict (in the order the map lists
    them, which stands for the order of insertion). *)
Definition iterate (v : pyval) : list pyval :=
  match v with
  | VList items => items
  | VStr s => map (fun c => VStr [c]) s
  | VDict d => map (fun kv : string * pyval => VStr (literal (fst kv))) (map_to_list d)
  | _ => []
  end.

(** What the route answers: 200 with the usage data, 400 with the text of
    the error, 503, or nothing of its own when the exception leaves the view
    function. *)
Variant response :=
  | Ok (usage_data : list (gmap string pyval))
  | BadRequest (error : error_text)
  | Unavailable
  | Unhandled (e : route_exn).

(** The two [except] clauses of [usage]. *)
Definition handle (e : route_exn) : response :=
  match e with
  | Resolution (ValueError text) => BadRequest text
  | RequestsError => Unavailable
  | _ => Unhandled e
  end.

Section Route.

Variable impl : sum_impl.
Variable requests_get : pyval -> http_result.

(** [usage], on what the request for the messages comes back with. *)
Definition usage (messages_response : http_result) (st : lru_cache)
  : response * lru_cache :=
  match fetch_messages messages_response with
  | inr e => (handle e, st)
  | inl messages =>
      if sized messages then
        match process_messages impl requests_get (iterate messages) st with
        | (Return usage_data, st') => (Ok usage_data, st')
        | (Raise e, st') => (handle (Resolution e), st')
        end
      else (handle (Resolution TypeError), st)
  end.

End Route.


(** ** The rules as the specification words them *)

(** One of [a e i o u], in either case. *)
Definition is_vowel (c : char) : bool :=
  ((c =? 97) || (c =? 101) || (c =? 105) || (c =? 111) || (c =? 117)
   || (c =? 65) || (c =? 69) || (c =? 73) || (c =? 79) || (c =? 85))%N.

(** Position [i], counted from 1, is a hit: a multiple of 3 that holds a vowel. *)
Definition vowel_hit (text : str) (i : nat) : bool :=
  (i mod 3 =? 0)%nat
  && match text !! (i - 1)%nat with
     | Some c => is_vowel c
     | None => false
     end.

Definition positional_vowel_hits (text : str) : nat :=
  length (List.filter (vowel_hit text) (seq 1 (length text))).

(** The words of each length bucket. *)
Definition short_words (words : list str) : list str :=
  List.filter (fun w => (1 <=? length w)%nat && (length w <=? 3)%nat) words.
Definition medium_words (words : list str) : list str :=
  List.filter (fun w => (4 <=? length w)%nat && (length w <=? 7)%nat) words.
Definition long_words (words : list str) : list str :=
  List.filter (fun w => (8 <=? length w)%nat) words.

(** [len(words)], as a Python int *)
Definition number_of (words : list str) : number := PyInt (Z.of_nat (length words)).

(** [5 if length > 100 else 0] *)
Definition length_penalty (text : str) : number :=
  if (100 <? length text)%nat then PyInt 5 else PyInt 0.

(** [-2] when no word occurs twice, else [0] *)
Definition uniqueness_bonus (words : list str) : number :=
  if bool_decide (NoDup words) then PyInt (-2) else PyInt 0.

(** The total before the palindrome doubling:
    base + char cost + word cost + vowel cost + length penalty + uniqueness bonus. *)
Definition pre_doubling_total (impl : sum_impl) (text : str) : number :=
  py_add (py_add (py_add (py_add (py_add
    (PyInt 1)
    (calculate_char_cost (Z.of_nat (length text))))
    (calculate_word_costs impl (extract_words text)))
    (calculate_third_vowel_cost impl text))
    (length_penalty text))
    (uniqueness_bonus (extract_words text)).

(** The usage entry that [process_message] builds. *)
Definition usage_entry_of (message_id timestamp credits_used report_name : pyval)
  : gmap string pyval :=
  let usage_entry : gmap string pyval :=
    <["credits_used" := credits_used]>
      (<["timestamp" := timestamp]> (<["message_id" := message_id]> ∅)) in
  if truthy report_name then <["report_name" := report_name]> usage_entry else usage_entry.

(** The failures of the reports service: access denied (403), a server
    error (500 and above), any other unexpected status, and a request that
    does not complete; with the text of the exception for each.  200 and 404
    are the two answers that are not failures. *)
Definition lookup_failure (report_id : pyval) (r : http_result) : option error_text :=
  match r with
  | RequestException => Some (RequestFailed report_id)
  | Response status_code _ =>
      if (status_code =? 200) || (status_code =? 404) then None
      else if status_code =? 403 then Some AccessForbidden
      else if 500 <=? status_code then Some ServiceUnavailable
      else Some (UnexpectedError report_id)
  end.

(** The cache once a call of [fetch_report] has missed and raised. *)
Definition count_miss (st : lru_cache) : lru_cache :=
  {| entries := entries st; hits := hits st; misses := S (misses st) |}.

(** ** Sample inputs *)

Definition hello_world : str := literal "Hello, World!".
Definition greeting : str := literal "Hello, world!".
Definition panama : str := literal "A man a plan a canal Panama".
Definition madam_madam : str := literal "madam madam".
Definition four_words : list str := map literal ["Hi"; "there"; "amazing"; "world"].

Definition sample_report : gmap string pyval :=
  list_to_map [("name", VStr (literal "Sample Report")); ("credit_cost", VNum (PyInt 10))].
Definition nameless_report : gmap string pyval :=
  list_to_map [("name", VStr []); ("credit_cost", VNum (PyInt 10))].
Definition costless_report : gmap string pyval :=
  list_to_map [("name", VStr (literal "Sample Report"))].

(** A reports service that knows report 7, has an empty name for report 9
    and no cost for report 10, refuses report 11 and finds no other. *)
Definition sample_service (report_id : pyval) : http_result :=
  match report_id with
  | VNum (PyInt 7) => Response 200 (Some (VDict sample_report))
  | VNum (PyInt 9) => Response 200 (Some (VDict nameless_report))
  | VNum (PyInt 10) => Response 200 (Some (VDict costless_report))
  | VNum (PyInt 11) => Response 403 None
  | _ => Response 404 None
  end.

Definition sample_timestamp : pyval := VStr (literal "2024-01-01T00:00:00Z").

Definition plain_message : gmap string pyval :=
  list_to_map
    [("id", VNum (PyInt 123)); ("timestamp", sample_timestamp); ("text", VStr greeting)].

Definition message_for (report_id : pyval) : gmap string pyval :=
  <["report_id" := report_id]> plain_message.

(** A cache that holds [maxsize] results, for the report_ids 1000 to 1099. *)
Definition full_cache : lru_cache :=
  {| entries := map (fun i => (VNum (PyInt (Z.of_nat i)), VNone)) (seq 1000 maxsize);
     hits := 0; misses := maxsize |}.

Definition priced_report : gmap string pyval :=
  list_to_map [("credit_cost", VNum (PyFloat (Float.of_ratio 45 10)))].

(** A reports service with unusual bodies: an empty object for report 20, a
    list for report 21, a report without a name for report 22. *)
Definition odd_service (report_id : pyval) : http_result :=
  match report_id with
  | VNum (PyInt 20) => Response 200 (Some (VDict ∅))
  | VNum (PyInt 21) => Response 200 (Some (VList [VNum (PyInt 1)]))
  | VNum (PyInt 22) => Response 200 (Some (VDict priced_report))
  | _ => Response 404 None
  end.

(** Answers of the messages service: a batch of two messages, a batch with a
    message that has no text, and a body without [messages]. *)
Definition two_messages : http_result :=
  Response 200
    (Some (VDict {["messages" :=
                     VList [VDict plain_message; VDict (message_for (VNum (PyInt 7)))]]})).
Definition no_messages : http_result := Response 200 (Some (VDict ∅)).

(** * Properties *)

(** ** The assertions of [test_app.py] *)

Example test_is_palindrome :
  is_palindrome panama = true /\ is_palindrome hello_world = false.
Proof. by vm_compute. Qed.

Example test_extract_words :
  extract_words (literal "Hello, World! Isn't it great?")
  = map literal ["Hello"; "World"; "Isn't"; "it"; "great"].
Proof. by vm_compute. Qed.

Example test_calculate_third_vowel_cost (impl : sum_impl) :
  calculate_third_vowel_cost impl hello_world = PyFloat (Float.of_ratio 3 10).
Proof. destruct impl; by vm_compute. Qed.

Example test_calculate_char_cost :
  calculate_char_cost 25 = PyFloat (Float.of_ratio 125 100).
Proof. by vm_compute. Qed.

Example test_calculate_word_costs (impl : sum_impl) :
  py_round (calculate_word_costs impl four_words) 2 = PyFloat (Float.of_ratio 7 10).
Proof. destruct impl; by vm_compute. Qed.

Example test_calculate_credits (impl : sum_impl) :
  calculate_credits impl (literal "Hello, amazing world!") (VNum (PyInt 123)) = PyInt 1.
Proof. destruct impl; by vm_compute. Qed.

Example test_fetch_report :
  fst (fetch_report sample_service (VNum (PyInt 7)) empty_cache)
  = Return (VDict sample_report).
Proof. by vm_compute. Qed.

Example test_process_report (impl : sum_impl) :
  fst (process_report impl sample_service (VNum (PyInt 7)) (VStr greeting)
         (VNum (PyInt 123)) empty_cache)
  = Return (VStr (literal "Sample Report"), VNum (PyInt 10)).
Proof. destruct impl; by vm_compute. Qed.

Example test_process_report_not_found (impl : sum_impl) :
  fst (process_report impl sample_service (VNum (PyInt 8)) (VStr greeting)
         (VNum (PyInt 123)) empty_cache)
  = Return (VNone, VNum (PyInt 1)).
Proof. destruct impl; by vm_compute. Qed.

Example test_usage (impl : sum_impl) :
  fst (process_messages impl sample_service [VDict plain_message] empty_cache)
  = Return [usage_entry_of (VNum (PyInt 123)) sample_timestamp (VNum (PyInt 1)) VNone].
Proof. destruct impl; by vm_compute. Qed.

(** ** Numbers *)

Lemma py_le_int (a b : Z) : py_le (PyInt a) (PyInt b) = (a <=? b).
Proof. unfold py_le, py_compare, Z.leb. by destruct (a ?= b). Qed.

Lemma py_gt_int (a b : Z) : py_gt (PyInt a) (PyInt b) = (b <? a).
Proof.
  unfold py_gt, py_compare, Z.ltb. rewrite (Z.compare_antisym a b).
  by destruct (a ?= b).
Qed.

Lemma py_le_inf (a : Z) : py_le (PyInt a) (PyFloat Float.inf) = true.
Proof. reflexivity. Qed.

Lemma py_gt_le (x y : number) : py_gt y x = true -> py_le x y = true.
Proof.
  unfold py_gt, py_le.
  destruct x as [a|f], y as [b|g]; simpl.
  - rewrite (Z.compare_antisym b a). by destruct (b ?= a).
  - destruct (Float.compare_int g a) as [[]|]; by simpl.
  - destruct (Float.compare_int f b) as [[]|]; by simpl.
  - destruct f as [s|s| |s m e], g as [t|t| |t n e']; simpl; try done;
      try (by destruct s); try (by destruct t); try (by destruct s, t).
    pose proof (Pos.compare_cont_antisym m n Eq) as Hmn. simpl in Hmn.
    change (SFcompare (S754_finite t n e') (S754_finite s m e))
      with (Some match t, s with
                 | true, false => Lt
                 | false, true => Gt
                 | false, false =>
                     match e' ?= e with
                     | Lt => Lt | Gt => Gt | Eq => Pos.compare_cont Eq n m
                     end
                 | true, true =>
                     match e' ?= e with
                     | Lt => Gt | Gt => Lt | Eq => CompOpp (Pos.compare_cont Eq n m)
                     end
                 end).
    change (SFcompare (S754_finite s m e) (S754_finite t n e'))
      with (Some match s, t with
                 | true, false => Lt
                 | false, true => Gt
                 | false, false =>
                     match e ?= e' with
                     | Lt => Lt | Gt => Gt | Eq => Pos.compare_cont Eq m n
                     end
                 | true, true =>
                     match e ?= e' with
                     | Lt => Gt | Gt => Lt | Eq => CompOpp (Pos.compare_cont Eq m n)
                     end
                 end).
    rewrite (Z.compare_antisym e' e), <- Hmn.
    destruct s, t; try done;
      destruct (e' ?= e); simpl; try done;
      by destruct (Pos.compare_cont Eq m n).
Qed.

Lemma py_max_floor (x y : number) :
  py_le x x = true -> py_le x (py_max x y) = true.
Proof.
  intros Hx. unfold py_max. destruct (py_gt y x) eqn:Hgt; [|done].
  by apply py_gt_le.
Qed.

(** A finite float rounded to two decimals is a zero or the double nearest
    to a whole number of hundredths. *)
Lemma round_hundredths (x : spec_float) :
  Float.is_finite x = true ->
  Float.is_zero (Float.round x 2) = true
  \/ exists n : Z, Float.round x 2 = Float.of_ratio n 100.
Proof.
  destruct x as [s|s| |s m e]; simpl; intros Hfin; try done.
  - by left.
  - match goal with |- context [match ?n with Z0 => _ | _ => _ end] => destruct n eqn:Hn end;
      [by left | right; eauto | right; eauto].
Qed.

(** ** Constants of [CREDIT_COSTS] *)

Lemma cost_base : CREDIT_COSTS !!! "base" = PyInt 1.
Proof. reflexivity. Qed.
Lemma cost_char : CREDIT_COSTS !!! "char" = PyFloat (Float.of_ratio 5 100).
Proof. reflexivity. Qed.
Lemma cost_third_vowel : CREDIT_COSTS !!! "third_vowel" = PyFloat (Float.of_ratio 3 10).
Proof. reflexivity. Qed.
Lemma cost_length_penalty_threshold : CREDIT_COSTS !!! "length_penalty_threshold" = PyInt 100.
Proof. reflexivity. Qed.
Lemma cost_length_penalty : CREDIT_COSTS !!! "length_penalty" = PyInt 5.
Proof. reflexivity. Qed.
Lemma cost_unique_word_bonus : CREDIT_COSTS !!! "unique_word_bonus" = PyInt (-2).
Proof. reflexivity. Qed.

(** ** Sums *)

Lemma sum_int_ones {A : Type} (impl : sum_impl) (l : list A) (z : Z) :
  sum_int impl z (map (fun _ => PyInt 1) l) = PyInt (z + Z.of_nat (length l)).
Proof.
  revert z. induction l as [|a l IH]; intros z; simpl.
  - f_equal. lia.
  - rewrite IH. f_equal. lia.
Qed.

Lemma map_const_replicate {A B : Type} (b : B) (l : list A) :
  map (fun _ => b) l = replicate (length l) b.
Proof. induction l as [|a l IH]; simpl; by f_equal. Qed.

(** ** Positional vowels *)

Lemma in_VOWELS (c : N) : in_str c VOWELS = is_vowel c.
Proof.
  unfold in_str, is_vowel.
  replace VOWELS with [97; 101; 105; 111; 117; 65; 69; 73; 79; 85]%N by reflexivity.
  cbn [existsb].
  destruct (N.eqb c 97), (N.eqb c 101), (N.eqb c 105), (N.eqb c 111), (N.eqb c 117),
    (N.eqb c 65), (N.eqb c 69), (N.eqb c 73), (N.eqb c 79), (N.eqb c 85); reflexivity.
Qed.

Lemma multiple_of_3 (k : nat) : (Z.of_nat k mod 3 =? 0) = (k mod 3 =? 0)%nat.
Proof.
  change 3 with (Z.of_nat 3). rewrite <- Nat2Z.inj_mod.
  destruct (Nat.eqb_spec (k mod 3) 0) as [->|Hne]; [done|].
  apply Z.eqb_neq. lia.
Qed.

Lemma enumerate_hits (text : list N) (k : nat) :
  length (List.filter (fun ic : Z * N => (fst ic mod 3 =? 0) && in_str (snd ic) VOWELS)
            (enumerate text (Z.of_nat k)))
  = length (List.filter
              (fun i => (i mod 3 =? 0)%nat
                        && match text !! (i - k)%nat with
                           | Some c => is_vowel c
                           | None => false
                           end)
              (seq k (length text))).
Proof.
  revert k. induction text as [|c text IH]; intros k; [done|].
  cbn [enumerate length seq List.filter fst snd].
  replace (Z.of_nat k + 1) with (Z.of_nat (S k)) by lia.
  rewrite Nat.sub_diag. cbn [lookup list_lookup].
  rewrite multiple_of_3, in_VOWELS.
  assert (Htail :
    List.filter (fun i => (i mod 3 =? 0)%nat
                          && match (c :: text) !! (i - k)%nat with
                             | Some c => is_vowel c
                             | None => false
                             end) (seq (S k) (length text))
    = List.filter (fun i => (i mod 3 =? 0)%nat
                            && match text !! (i - S k)%nat with
                               | Some c => is_vowel c
                               | None => false
                               end) (seq (S k) (length text))).
  { apply List.filter_ext_in. intros i Hi. apply in_seq in Hi.
    replace (i - k)%nat with (S (i - S k)) by lia. reflexivity. }
  rewrite Htail.
  destruct ((k mod 3 =? 0)%nat && is_vowel c); cbn [length]; by rewrite IH.
Qed.

Lemma third_vowel_hits (text : list N) :
  length (List.filter (fun ic : Z * N => (fst ic mod 3 =? 0) && in_str (snd ic) VOWELS)
            (enumerate text 1))
  = positional_vowel_hits text.
Proof. exact (enumerate_hits text 1). Qed.

(** ** Word buckets *)

Lemma words_in_range_count (impl : sum_impl) (words : list (list N)) (r : number * number) :
  words_in_range impl words r = number_of (List.filter (in_range r) words).
Proof. unfold words_in_range, py_sum, number_of. by rewrite sum_int_ones. Qed.

Lemma in_range_short (w : list N) :
  in_range (PyInt 1, PyInt 3) w = (1 <=? length w)%nat && (length w <=? 3)%nat.
Proof.
  unfold in_range. cbn [fst snd]. rewrite !py_le_int.
  destruct (Nat.leb_spec 1 (length w)), (Nat.leb_spec (length w) 3);
    destruct (Z.leb_spec 1 (Z.of_nat (length w))), (Z.leb_spec (Z.of_nat (length w)) 3);
    simpl; try reflexivity; lia.
Qed.

Lemma in_range_medium (w : list N) :
  in_range (PyInt 4, PyInt 7) w = (4 <=? length w)%nat && (length w <=? 7)%nat.
Proof.
  unfold in_range. cbn [fst snd]. rewrite !py_le_int.
  destruct (Nat.leb_spec 4 (length w)), (Nat.leb_spec (length w) 7);
    destruct (Z.leb_spec 4 (Z.of_nat (length w))), (Z.leb_spec (Z.of_nat (length w)) 7);
    simpl; try reflexivity; lia.
Qed.

Lemma in_range_long (w : list N) :
  in_range (PyInt 8, PyFloat Float.inf) w = (8 <=? length w)%nat.
Proof.
  unfold in_range. cbn [fst snd]. rewrite py_le_int, py_le_inf, andb_true_r.
  destruct (Nat.leb_spec 8 (length w)), (Z.leb_spec 8 (Z.of_nat (length w)));
    try reflexivity; lia.
Qed.

Lemma word_costs_buckets (impl : sum_impl) (words : list (list N)) :
  calculate_word_costs impl words
  = py_sum impl
      [ py_mul (number_of (short_words words)) (PyFloat (Float.of_ratio 1 10));
        py_mul (number_of (medium_words words)) (PyFloat (Float.of_ratio 2 10));
        py_mul (number_of (long_words words)) (PyFloat (Float.of_ratio 3 10)) ].
Proof.
  unfold calculate_word_costs, ranges_items. cbn [map fst snd category_costs].
  rewrite !words_in_range_count.
  unfold short_words, medium_words, long_words.
  rewrite (List.filter_ext _ _ in_range_short).
  rewrite (List.filter_ext _ _ in_range_medium).
  rewrite (List.filter_ext _ _ in_range_long).
  reflexivity.
Qed.

(** Every word of at least one character is in exactly one bucket. *)
Lemma buckets_partition (words : list (list N)) :
  (length (short_words words) + length (medium_words words) + length (long_words words))%nat
  = length (List.filter (fun w => (1 <=? length w)%nat) words).
Proof.
  unfold short_words, medium_words, long_words.
  induction words as [|w words IH]; [done|].
  cbn [List.filter].
  destruct (Nat.leb_spec 1 (length w)), (Nat.leb_spec (length w) 3),
    (Nat.leb_spec 4 (length w)), (Nat.leb_spec (length w) 7),
    (Nat.leb_spec 8 (length w)); cbn [andb length]; lia.
Qed.

(** ** Uniqueness of words *)

Lemma size_list_to_set_le (l : list (list N)) :
  (size (list_to_set l : gset (list N)) <= length l)%nat.
Proof.
  induction l as [|x l IH]; cbn [length].
  - by rewrite list_to_set_nil, size_empty.
  - rewrite list_to_set_cons.
    destruct (decide (x ∈ (list_to_set l : gset (list N)))) as [Hin|Hnin].
    + rewrite (subseteq_union_1_L {[x]} (list_to_set l))
        by by apply singleton_subseteq_l.
      lia.
    + rewrite size_union by by apply disjoint_singleton_l.
      rewrite size_singleton. lia.
Qed.

Lemma all_unique_NoDup (l : list (list N)) :
  size (list_to_set l : gset (list N)) = length l <-> NoDup l.
Proof.
  split; [|apply size_list_to_set].
  induction l as [|x l IH]; cbn [length]; intros Hsize; [constructor|].
  rewrite list_to_set_cons in Hsize.
  pose proof (size_list_to_set_le l) as Hle.
  destruct (decide (x ∈ (list_to_set l : gset (list N)))) as [Hin|Hnin].
  - rewrite (subseteq_union_1_L {[x]} (list_to_set l)) in Hsize
      by by apply singleton_subseteq_l.
    lia.
  - rewrite size_union in Hsize by by apply disjoint_singleton_l.
    rewrite size_singleton in Hsize.
    constructor.
    + by rewrite elem_of_list_to_set in Hnin.
    + apply IH. lia.
Qed.

(** ** The credit formula *)

Lemma calculate_credits_eq (impl : sum_impl) (text : list N) (message_id : pyval) :
  calculate_credits impl text message_id
  = py_max (PyInt 1)
      (py_round
         (if is_palindrome text
          then py_mul (pre_doubling_total impl text) (PyInt 2)
          else pre_doubling_total impl text) 2).
Proof.
  unfold calculate_credits, pre_doubling_total, length_penalty, uniqueness_bonus.
  rewrite cost_base, cost_length_penalty_threshold, cost_length_penalty,
    cost_unique_word_bonus, py_gt_int.
  rewrite (bool_decide_ext _ _ (all_unique_NoDup (extract_words text))).
  replace (100 <? Z.of_nat (length text)) with (100 <? length text)%nat; [done|].
  destruct (Nat.ltb_spec 100 (length text)), (Z.ltb_spec 100 (Z.of_nat (length text)));
    try reflexivity; lia.
Qed.

Lemma calculate_credits_ge_1 (impl : sum_impl) (text : list N) (message_id : pyval) :
  py_le (PyInt 1) (calculate_credits impl text message_id) = true.
Proof. rewrite calculate_credits_eq. by apply py_max_floor. Qed.

Lemma total_is_float (impl : sum_impl) (text : list N) :
  exists t : spec_float,
    (if is_palindrome text
     then py_mul (pre_doubling_total impl text) (PyInt 2)
     else pre_doubling_total impl text) = PyFloat t.
Proof.
  unfold pre_doubling_total, calculate_char_cost. rewrite cost_char.
  cbn [py_mul py_add].
  destruct (is_palindrome text);
    repeat match goal with
      | |- context [py_add (PyFloat ?f) ?y] =>
          change (py_add (PyFloat f) y) with (PyFloat (Float.add f (to_float y)))
      end;
    cbn [py_mul]; eauto.
Qed.

Lemma zero_not_above_1 (x : spec_float) :
  Float.is_zero x = true -> py_gt (PyFloat x) (PyInt 1) = false.
Proof. by destruct x. Qed.

(** C1: for every text, the credits are [max(1, round(total, 2))], where
    [total] is base + char cost + word cost + vowel cost + length penalty +
    uniqueness bonus, doubled when the text is a palindrome.  Hence they are
    at least 1, and they are either the int 1 or the float total rounded to
    2 decimal places, which for a finite total is the double nearest to a
    whole number of hundredths. *)
Theorem calculate_credits_floor_round (impl : sum_impl) (text : list N) (message_id : pyval) :
  let total :=
    if is_palindrome text
    then py_mul (pre_doubling_total impl text) (PyInt 2)
    else pre_doubling_total impl text in
  calculate_credits impl text message_id = py_max (PyInt 1) (py_round total 2)
  /\ py_le (PyInt 1) (calculate_credits impl text message_id) = true
  /\ (calculate_credits impl text message_id = PyInt 1
      \/ exists t : spec_float,
           total = PyFloat t
           /\ calculate_credits impl text message_id = PyFloat (Float.round t 2)
           /\ (Float.is_finite t = true ->
               exists n : Z, Float.round t 2 = Float.of_ratio n 100)).
Proof.
  intros total. split; [apply calculate_credits_eq|].
  split; [apply calculate_credits_ge_1|].
  rewrite calculate_credits_eq. fold total.
  destruct (total_is_float impl text) as [t Ht]. fold total in Ht. rewrite Ht.
  unfold py_max, py_round.
  destruct (py_gt (PyFloat (Float.round t 2)) (PyInt 1)) eqn:Hgt; [right|by left].
  exists t. split; [done|]. split; [done|]. intros Hfin.
  destruct (round_hundredths t Hfin) as [Hzero|Hn]; [|done].
  by rewrite (zero_not_above_1 _ Hzero) in Hgt.
Qed.

Lemma is_palindrome_spec (text : list N) :
  is_palindrome text = true
  <-> sub_non_alnum (lower text) = rev (sub_non_alnum (lower text)).
Proof. unfold is_palindrome. apply bool_decide_eq_true. Qed.

(** C7, as the code has it: for every text that is a palindrome once
    lowercased and stripped of everything but ASCII letters and digits, the
    credits are twice the pre-doubling total, rounded to 2 decimal places
    and then floored at 1; [is_palindrome("A man a plan a canal Panama")]
    is true. *)
Theorem palindrome_doubling (impl : sum_impl) (text : list N) (message_id : pyval) :
  is_palindrome text = true ->
  sub_non_alnum (lower text) = rev (sub_non_alnum (lower text))
  /\ calculate_credits impl text message_id
     = py_max (PyInt 1) (py_round (py_mul (pre_doubling_total impl text) (PyInt 2)) 2)
  /\ is_palindrome panama = true.
Proof.
  intros Hpal. split; [by apply is_palindrome_spec|]. split; [|by vm_compute].
  by rewrite calculate_credits_eq, Hpal.
Qed.

Lemma palindrome_doubling_witness :
  is_palindrome madam_madam = true
  /\ calculate_credits PlainSum madam_madam VNone
     = py_max (PyInt 1)
         (py_round (py_mul (pre_doubling_total PlainSum madam_madam) (PyInt 2)) 2).
Proof.
  split; [by vm_compute|].
  apply (palindrome_doubling PlainSum madam_madam VNone). by vm_compute.
Defined.

(** C7 as stated, without the rounding, fails: "madam madam" is a
    palindrome whose doubled total is 3.9000000000000004, while its credits
    are 3.9. *)
Lemma palindrome_doubling_unrounded_fails :
  is_palindrome madam_madam = true
  /\ (forall impl,
        py_mul (pre_doubling_total impl madam_madam) (PyInt 2)
        = PyFloat (Float.of_ratio 39000000000000004 10000000000000000)
        /\ calculate_credits impl madam_madam VNone = PyFloat (Float.of_ratio 39 10)
        /\ calculate_credits impl madam_madam VNone
           <> py_max (PyInt 1) (py_mul (pre_doubling_total impl madam_madam) (PyInt 2))).
Proof.
  split; [by vm_compute|].
  intros impl. split; [|split].
  - destruct impl; by vm_compute.
  - destruct impl; by vm_compute.
  - destruct impl; vm_compute; discriminate.
Qed.

(** C8: for every text, the third-vowel cost is one 0.3 for each position,
    counted from 1, that is a multiple of 3 and holds one of [a e i o u] in
    either case; "Hello, World!" has exactly one such position and costs
    0.3. *)
Theorem third_vowel_cost_per_hit (impl : sum_impl) (text : list N) :
  calculate_third_vowel_cost impl text
  = py_sum impl (replicate (positional_vowel_hits text) (PyFloat (Float.of_ratio 3 10)))
  /\ positional_vowel_hits hello_world = 1%nat
  /\ calculate_third_vowel_cost impl hello_world = PyFloat (Float.of_ratio 3 10).
Proof.
  split; [|split].
  - unfold calculate_third_vowel_cost.
    by rewrite cost_third_vowel, map_const_replicate, third_vowel_hits.
  - by vm_compute.
  - destruct impl; by vm_compute.
Qed.

(** C6, as the code has it: the word cost is the number of words of 1 to 3
    characters times 0.1, plus the number of words of 4 to 7 characters
    times 0.2, plus the number of words of 8 or more characters times 0.3,
    every non-empty word being in exactly one bucket; on
    ["Hi", "there", "amazing", "world"] the breakdown is short = 1,
    medium = 3, long = 0, the sum is 0.7000000000000001 and it rounds to 0.7
    at 2 decimal places. *)
Theorem word_costs_breakdown (impl : sum_impl) (words : list (list N)) :
  calculate_word_costs impl words
  = py_sum impl
      [ py_mul (number_of (short_words words)) (PyFloat (Float.of_ratio 1 10));
        py_mul (number_of (medium_words words)) (PyFloat (Float.of_ratio 2 10));
        py_mul (number_of (long_words words)) (PyFloat (Float.of_ratio 3 10)) ]
  /\ (length (short_words words) + length (medium_words words)
      + length (long_words words))%nat
     = length (List.filter (fun w => (1 <=? length w)%nat) words)
  /\ (number_of (short_words four_words), number_of (medium_words four_words),
      number_of (long_words four_words))
     = (PyInt 1, PyInt 3, PyInt 0)
  /\ calculate_word_costs impl four_words
     = PyFloat (Float.of_ratio 7000000000000001 10000000000000000)
  /\ py_round (calculate_word_costs impl four_words) 2 = PyFloat (Float.of_ratio 7 10).
Proof.
  split; [apply word_costs_buckets|].
  split; [apply buckets_partition|].
  split; [by vm_compute|].
  split; destruct impl; by vm_compute.
Qed.

(** C6 as stated fails on its example: "amazing" has 7 characters and is
    medium, so the breakdown is not short = 1, medium = 2, long = 1, and the
    sum is not the float 0.7. *)
Lemma word_costs_example_breakdown_fails :
  ~ (exists impl,
       words_in_range impl four_words (PyInt 1, PyInt 3) = PyInt 1
       /\ words_in_range impl four_words (PyInt 4, PyInt 7) = PyInt 2
       /\ words_in_range impl four_words (PyInt 8, PyFloat Float.inf) = PyInt 1)
  /\ ~ (exists impl,
         calculate_word_costs impl four_words = PyFloat (Float.of_ratio 7 10)).
Proof.
  split; intros [impl H].
  - destruct H as (_ & H & _). destruct impl; vm_compute in H; discriminate.
  - destruct impl; vm_compute in H; discriminate.
Qed.

(** ** The usage entry *)

Lemma usage_entry_credits_used (message_id timestamp credits_used report_name : pyval) :
  usage_entry_of message_id timestamp credits_used report_name !! "credits_used"
  = Some credits_used.
Proof. unfold usage_entry_of. destruct (truthy report_name); by simplify_map_eq. Qed.

Lemma usage_entry_report_name (message_id timestamp credits_used report_name : pyval) :
  usage_entry_of message_id timestamp credits_used report_name !! "report_name"
  = if truthy report_name then Some report_name else None.
Proof. unfold usage_entry_of. destruct (truthy report_name); by simplify_map_eq. Qed.

Lemma usage_entry_message_id (message_id timestamp credits_used report_name : pyval) :
  usage_entry_of message_id timestamp credits_used report_name !! "message_id"
  = Some message_id.
Proof. unfold usage_entry_of. destruct (truthy report_name); by simplify_map_eq. Qed.

Lemma usage_entry_timestamp (message_id timestamp credits_used report_name : pyval) :
  usage_entry_of message_id timestamp credits_used report_name !! "timestamp"
  = Some timestamp.
Proof. unfold usage_entry_of. destruct (truthy report_name); by simplify_map_eq. Qed.

Lemma truthy_dict (d : gmap string pyval) (key : string) (v : pyval) :
  d !! key = Some v -> truthy (VDict d) = true.
Proof.
  intros Hkey. simpl. apply negb_true_iff, Nat.eqb_neq. intros Hsize.
  apply map_size_empty_iff in Hsize. subst d. by rewrite lookup_empty in Hkey.
Qed.

Lemma truthy_nonempty_dict (d : gmap string pyval) :
  d <> ∅ -> truthy (VDict d) = true.
Proof.
  intros Hne. simpl. apply negb_true_iff, Nat.eqb_neq. intros Hsize.
  by apply map_size_empty_iff in Hsize.
Qed.

(** ** Resolution of one message *)

Ltac run :=
  cbv [mbind M_bind mret M_ret raise except_KeyError getitem get_method
       call_calculate_credits] in *.

Section Resolution.

Variable impl : sum_impl.
Variable requests_get : pyval -> http_result.

Lemma fetch_report_failure (report_id : pyval) (text : error_text) (st : lru_cache) :
  hashable report_id = true ->
  cache_find report_id (entries st) = None ->
  lookup_failure report_id (requests_get report_id) = Some text ->
  fetch_report requests_get report_id st = (Raise (Exception text), count_miss st).
Proof.
  intros Hhash Hmiss Hfail. unfold fetch_report, fetch_report_wrapped.
  rewrite Hhash, Hmiss. unfold lookup_failure in Hfail.
  destruct (requests_get report_id) as [status_code json|].
  - destruct (status_code =? 200); [done|].
    destruct (status_code =? 404); [done|]. simpl in Hfail.
    destruct (status_code =? 403); [by inversion Hfail|].
    destruct (500 <=? status_code); by inversion Hfail.
  - by inversion Hfail.
Qed.

Lemma fetch_report_not_found (report_id : pyval) (json : option pyval) (st : lru_cache) :
  hashable report_id = true ->
  cache_find report_id (entries st) = None ->
  requests_get report_id = Response 404 json ->
  fetch_report requests_get report_id st
  = (Return VNone,
     {| entries := take maxsize ((report_id, VNone) :: entries st);
        hits := hits st; misses := S (misses st) |}).
Proof.
  intros Hhash Hmiss Hget. unfold fetch_report, fetch_report_wrapped.
  by rewrite Hhash, Hmiss, Hget.
Qed.

Lemma process_report_eq (report_id message_text message_id : pyval) (st : lru_cache) :
  process_report impl requests_get report_id message_text message_id st
  = match fetch_report requests_get report_id st with
    | (Return report_data, st') =>
        if truthy report_data then
          match report_data with
          | VDict report =>
              (Return (default VNone (report !! "name"),
                       default (VNum (PyInt 0)) (report !! "credit_cost")), st')
          | _ => (Raise AttributeError, st')
          end
        else
          match message_text with
          | VStr text => (Return (VNone, VNum (calculate_credits impl text message_id)), st')
          | _ => (Raise TypeError, st')
          end
    | (Raise e, st') => (Raise e, st')
    end.
Proof.
  unfold process_report. run.
  destruct (fetch_report requests_get report_id st) as [[report_data|e] st']; [|done].
  destruct (truthy report_data); [by destruct report_data|by destruct message_text].
Qed.

Lemma process_message_report (d : gmap string pyval) (st : lru_cache)
    (message_id timestamp message_text report_id : pyval) :
  d !! "id" = Some message_id ->
  d !! "timestamp" = Some timestamp ->
  d !! "text" = Some message_text ->
  d !! "report_id" = Some report_id ->
  truthy report_id = true ->
  process_message impl requests_get (VDict d) st
  = match process_report impl requests_get report_id message_text message_id st with
    | (Return (report_name, credits_used), st') =>
        (Return (usage_entry_of message_id timestamp credits_used report_name), st')
    | (Raise (KeyError key), st') => (Raise (ValueError (MissingKey key)), st')
    | (Raise e, st') => (Raise e, st')
    end.
Proof.
  intros Hid Hts Htext Hrid Htruthy. unfold process_message.
  rewrite Hrid. change (default VNone (Some report_id)) with report_id.
  rewrite Htruthy. run. rewrite Hid, Hts, Htext.
  destruct (process_report impl requests_get report_id message_text message_id st)
    as [[[report_name credits_used]|e] st']; [done|by destruct e].
Qed.

Lemma process_message_local (d : gmap string pyval) (st : lru_cache) :
  truthy (default VNone (d !! "report_id")) = false ->
  process_message impl requests_get (VDict d) st
  = (match d !! "id", d !! "timestamp", d !! "text" with
     | None, _, _ => Raise (ValueError (MissingKey "id"))
     | Some _, None, _ => Raise (ValueError (MissingKey "timestamp"))
     | Some _, Some _, None => Raise (ValueError (MissingKey "text"))
     | Some message_id, Some timestamp, Some (VStr text) =>
         Return (usage_entry_of message_id timestamp
                   (VNum (calculate_credits impl text message_id)) VNone)
     | Some _, Some _, Some _ => Raise TypeError
     end, st).
Proof.
  intros Hfalsy. unfold process_message. rewrite Hfalsy. run.
  destruct (d !! "id") as [message_id|]; [|done].
  destruct (d !! "timestamp") as [timestamp|]; [|done].
  destruct (d !! "text") as [[]|]; done.
Qed.

Lemma process_message_missing (d : gmap string pyval) (st : lru_cache) :
  process_message impl requests_get (VDict d) st
  = match d !! "id", d !! "timestamp", d !! "text" with
    | None, _, _ => (Raise (ValueError (MissingKey "id")), st)
    | Some _, None, _ => (Raise (ValueError (MissingKey "timestamp")), st)
    | Some _, Some _, None => (Raise (ValueError (MissingKey "text")), st)
    | Some _, Some _, Some _ => process_message impl requests_get (VDict d) st
    end.
Proof.
  destruct (d !! "id") as [message_id|] eqn:Hid;
    [destruct (d !! "timestamp") as [timestamp|] eqn:Hts;
     [destruct (d !! "text") as [message_text|] eqn:Htext; [done|]|]|];
    unfold process_message; run; rewrite ?Hid, ?Hts, ?Htext; try done.
  by destruct (truthy (default VNone (d !! "report_id"))).
Qed.

Lemma process_messages_app (before after : list pyval) (st : lru_cache) :
  process_messages impl requests_get (before ++ after) st
  = match process_messages impl requests_get before st with
    | (Return usage_before, st1) =>
        match process_messages impl requests_get after st1 with
        | (Return usage_after, st2) => (Return (usage_before ++ usage_after), st2)
        | (Raise e, st2) => (Raise e, st2)
        end
    | (Raise e, st1) => (Raise e, st1)
    end.
Proof.
  revert st. induction before as [|message before IH]; intros st.
  - cbn [app process_messages]. run.
    by destruct (process_messages impl requests_get after st) as [[] ?].
  - cbn [app process_messages]. run.
    destruct (process_message impl requests_get message st) as [[u|e] st0]; [|done].
    specialize (IH st0). run. rewrite IH.
    destruct (process_messages impl requests_get before st0) as [[us|e] st1]; [|done].
    by destruct (process_messages impl requests_get after st1) as [[] ?].
Qed.

End Resolution.

(** C2, as the code has it: when the lookup for a message's report_id
    returns a Report with a name and a credit_cost, the usage record has the
    Report's credit_cost as its credits_used, untouched, and the Report's
    name as its report_name when that name is truthy (a non-empty string);
    a Report whose name is empty gives a record without report_name. *)
Theorem report_overrides_credits (impl : sum_impl) (requests_get : pyval -> http_result)
    (d report : gmap string pyval) (st st' : lru_cache)
    (message_id timestamp message_text report_id name credit_cost : pyval) :
  d !! "id" = Some message_id ->
  d !! "timestamp" = Some timestamp ->
  d !! "text" = Some message_text ->
  d !! "report_id" = Some report_id ->
  truthy report_id = true ->
  fetch_report requests_get report_id st = (Return (VDict report), st') ->
  report !! "name" = Some name ->
  report !! "credit_cost" = Some credit_cost ->
  exists usage_entry,
    process_message impl requests_get (VDict d) st = (Return usage_entry, st')
    /\ usage_entry !! "credits_used" = Some credit_cost
    /\ usage_entry !! "report_name" = (if truthy name then Some name else None).
Proof.
  intros Hid Hts Htext Hrid Htruthy Hfetch Hname Hcost.
  exists (usage_entry_of message_id timestamp credit_cost name).
  rewrite (process_message_report impl requests_get d st _ _ _ _ Hid Hts Htext Hrid Htruthy).
  rewrite process_report_eq, Hfetch, (truthy_dict report "name" name Hname), Hname, Hcost.
  split; [done|]. split; [apply usage_entry_credits_used|apply usage_entry_report_name].
Qed.

Lemma report_overrides_credits_witness :
  exists usage_entry,
    process_message PlainSum sample_service (VDict (message_for (VNum (PyInt 7)))) empty_cache
    = (Return usage_entry,
       snd (fetch_report sample_service (VNum (PyInt 7)) empty_cache))
    /\ usage_entry !! "credits_used" = Some (VNum (PyInt 10))
    /\ usage_entry !! "report_name" = Some (VStr (literal "Sample Report")).
Proof.
  apply (report_overrides_credits PlainSum sample_service
           (message_for (VNum (PyInt 7))) sample_report empty_cache
           (snd (fetch_report sample_service (VNum (PyInt 7)) empty_cache))
           (VNum (PyInt 123)) sample_timestamp (VStr greeting) (VNum (PyInt 7))
           (VStr (literal "Sample Report")) (VNum (PyInt 10)));
    reflexivity.
Defined.

(** C2 as stated fails for a Report whose name is the empty string: the
    lookup returns the Report, its credit_cost is used, and the usage record
    has no report_name. *)
Lemma empty_report_name_dropped :
  exists usage_entry st',
    fetch_report sample_service (VNum (PyInt 9)) empty_cache
    = (Return (VDict nameless_report), st')
    /\ nameless_report !! "name" = Some (VStr [])
    /\ process_message PlainSum sample_service (VDict (message_for (VNum (PyInt 9))))
         empty_cache
       = (Return usage_entry, st')
    /\ usage_entry !! "credits_used" = Some (VNum (PyInt 10))
    /\ usage_entry !! "report_name" = None
    /\ usage_entry !! "report_name" <> nameless_report !! "name".
Proof.
  eexists. eexists. split; [reflexivity|]. split; [reflexivity|].
  split; [reflexivity|]. split; [reflexivity|]. split; [reflexivity|].
  discriminate.
Qed.

(** C3: when the lookup for a message's report_id returns nothing (the
    report is not found), the usage record has the locally calculated
    credits of the message's text as its credits_used and no report_name. *)
Theorem report_not_found_falls_back (impl : sum_impl) (requests_get : pyval -> http_result)
    (d : gmap string pyval) (st st' : lru_cache)
    (message_id timestamp report_id : pyval) (text : list N) :
  d !! "id" = Some message_id ->
  d !! "timestamp" = Some timestamp ->
  d !! "text" = Some (VStr text) ->
  d !! "report_id" = Some report_id ->
  truthy report_id = true ->
  fetch_report requests_get report_id st = (Return VNone, st') ->
  exists usage_entry,
    process_message impl requests_get (VDict d) st = (Return usage_entry, st')
    /\ usage_entry !! "credits_used" = Some (VNum (calculate_credits impl text message_id))
    /\ usage_entry !! "report_name" = None.
Proof.
  intros Hid Hts Htext Hrid Htruthy Hfetch.
  exists (usage_entry_of message_id timestamp
            (VNum (calculate_credits impl text message_id)) VNone).
  rewrite (process_message_report impl requests_get d st _ _ _ _ Hid Hts Htext Hrid Htruthy).
  rewrite process_report_eq, Hfetch. cbn [truthy].
  split; [done|]. split; [apply usage_entry_credits_used|apply usage_entry_report_name].
Qed.

Lemma report_not_found_falls_back_witness :
  exists usage_entry,
    process_message PlainSum sample_service (VDict (message_for (VNum (PyInt 8)))) empty_cache
    = (Return usage_entry,
       snd (fetch_report sample_service (VNum (PyInt 8)) empty_cache))
    /\ usage_entry !! "credits_used"
       = Some (VNum (calculate_credits PlainSum greeting (VNum (PyInt 123))))
    /\ usage_entry !! "report_name" = None.
Proof.
  apply (report_not_found_falls_back PlainSum sample_service
           (message_for (VNum (PyInt 8))) empty_cache
           (snd (fetch_report sample_service (VNum (PyInt 8)) empty_cache))
           (VNum (PyInt 123)) sample_timestamp (VNum (PyInt 8)) greeting);
    reflexivity.
Defined.

(** C4: a message that lacks [id], [timestamp] or [text] is refused with a
    [ValueError] that names a field it lacks (the first of the three, in
    that order); no usage record is produced and no report is looked up. *)
Theorem missing_field_is_malformed (impl : sum_impl) (requests_get : pyval -> http_result)
    (d : gmap string pyval) (st : lru_cache) :
  d !! "id" = None \/ d !! "timestamp" = None \/ d !! "text" = None ->
  exists key,
    (key = "id" \/ key = "timestamp" \/ key = "text")
    /\ d !! key = None
    /\ process_message impl requests_get (VDict d) st
       = (Raise (ValueError (MissingKey key)), st).
Proof.
  intros Hmissing. rewrite process_message_missing.
  destruct (d !! "id") as [message_id|] eqn:Hid; [|exists "id"; auto].
  destruct (d !! "timestamp") as [timestamp|] eqn:Hts; [|exists "timestamp"; auto].
  destruct (d !! "text") as [message_text|] eqn:Htext; [|exists "text"; auto].
  by destruct Hmissing as [?|[?|?]].
Qed.

Lemma missing_field_is_malformed_witness :
  exists key,
    (key = "id" \/ key = "timestamp" \/ key = "text")
    /\ delete "text" (message_for (VNum (PyInt 7))) !! key = None
    /\ process_message PlainSum sample_service
         (VDict (delete "text" (message_for (VNum (PyInt 7))))) empty_cache
       = (Raise (ValueError (MissingKey key)), empty_cache).
Proof.
  apply (missing_field_is_malformed PlainSum sample_service
           (delete "text" (message_for (VNum (PyInt 7)))) empty_cache).
  right. right. reflexivity.
Defined.

(** C5: in a batch, once the messages before it are resolved, a message
    whose report lookup reaches the service and fails (403, 500 and above,
    any other unexpected status, or a request error) makes the whole batch
    raise the exception of that failure: no list of usage records is
    returned and the message is not priced locally. *)
Theorem failed_lookup_aborts_batch (impl : sum_impl) (requests_get : pyval -> http_result)
    (before after : list pyval) (usage_before : list (gmap string pyval))
    (d : gmap string pyval) (st st1 : lru_cache)
    (message_id timestamp message_text report_id : pyval) (failure : error_text) :
  process_messages impl requests_get before st = (Return usage_before, st1) ->
  d !! "id" = Some message_id ->
  d !! "timestamp" = Some timestamp ->
  d !! "text" = Some message_text ->
  d !! "report_id" = Some report_id ->
  truthy report_id = true ->
  hashable report_id = true ->
  cache_find report_id (entries st1) = None ->
  lookup_failure report_id (requests_get report_id) = Some failure ->
  process_message impl requests_get (VDict d) st1
  = (Raise (Exception failure), count_miss st1)
  /\ process_messages impl requests_get (before ++ VDict d :: after) st
     = (Raise (Exception failure), count_miss st1).
Proof.
  intros Hbefore Hid Hts Htext Hrid Htruthy Hhash Hmiss Hfail.
  assert (Hmessage : process_message impl requests_get (VDict d) st1
                     = (Raise (Exception failure), count_miss st1)).
  { rewrite (process_message_report impl requests_get d st1 _ _ _ _
               Hid Hts Htext Hrid Htruthy).
    rewrite process_report_eq.
    by rewrite (fetch_report_failure requests_get report_id failure st1 Hhash Hmiss Hfail). }
  split; [done|].
  rewrite process_messages_app, Hbefore. cbn [process_messages]. run.
  by rewrite Hmessage.
Qed.

Lemma failed_lookup_aborts_batch_witness :
  process_message PlainSum sample_service (VDict (message_for (VNum (PyInt 11))))
    (snd (process_messages PlainSum sample_service [VDict plain_message] empty_cache))
  = (Raise (Exception AccessForbidden),
     count_miss (snd (process_messages PlainSum sample_service [VDict plain_message]
                        empty_cache)))
  /\ process_messages PlainSum sample_service
       ([VDict plain_message] ++ VDict (message_for (VNum (PyInt 11)))
          :: [VDict plain_message]) empty_cache
     = (Raise (Exception AccessForbidden),
        count_miss (snd (process_messages PlainSum sample_service [VDict plain_message]
                           empty_cache))).
Proof.
  apply (failed_lookup_aborts_batch PlainSum sample_service
           [VDict plain_message] [VDict plain_message]
           [usage_entry_of (VNum (PyInt 123)) sample_timestamp (VNum (PyInt 1)) VNone]
           (message_for (VNum (PyInt 11))) empty_cache
           (snd (process_messages PlainSum sample_service [VDict plain_message] empty_cache))
           (VNum (PyInt 123)) sample_timestamp (VStr greeting) (VNum (PyInt 11))
           AccessForbidden);
    by vm_compute.
Defined.

(** C9: when the lookup returns a non-empty Report without a credit_cost,
    [process_report] returns 0 for the credits, the default of [.get], and
    not the local calculation, which is never 0; the usage record then has
    credits_used 0, below 1. *)
Theorem report_without_credit_cost (impl : sum_impl) (requests_get : pyval -> http_result)
    (d report : gmap string pyval) (st st' : lru_cache)
    (message_id timestamp message_text report_id : pyval) :
  d !! "id" = Some message_id ->
  d !! "timestamp" = Some timestamp ->
  d !! "text" = Some message_text ->
  d !! "report_id" = Some report_id ->
  truthy report_id = true ->
  fetch_report requests_get report_id st = (Return (VDict report), st') ->
  report <> ∅ ->
  report !! "credit_cost" = None ->
  process_report impl requests_get report_id message_text message_id st
  = (Return (default VNone (report !! "name"), VNum (PyInt 0)), st')
  /\ (forall text, calculate_credits impl text message_id <> PyInt 0)
  /\ (exists usage_entry,
        process_message impl requests_get (VDict d) st = (Return usage_entry, st')
        /\ usage_entry !! "credits_used" = Some (VNum (PyInt 0)))
  /\ py_gt (PyInt 1) (PyInt 0) = true.
Proof.
  intros Hid Hts Htext Hrid Htruthy Hfetch Hne Hcost.
  assert (Hreport : process_report impl requests_get report_id message_text message_id st
                    = (Return (default VNone (report !! "name"), VNum (PyInt 0)), st')).
  { by rewrite process_report_eq, Hfetch, (truthy_nonempty_dict report Hne), Hcost. }
  split; [done|]. split; [|split; [|done]].
  - intros text Hzero.
    pose proof (calculate_credits_ge_1 impl text message_id) as Hge.
    by rewrite Hzero in Hge.
  - exists (usage_entry_of message_id timestamp (VNum (PyInt 0))
              (default VNone (report !! "name"))).
    rewrite (process_message_report impl requests_get d st _ _ _ _
               Hid Hts Htext Hrid Htruthy), Hreport.
    split; [done|apply usage_entry_credits_used].
Qed.

Lemma report_without_credit_cost_witness :
  exists usage_entry,
    process_message PlainSum sample_service (VDict (message_for (VNum (PyInt 10))))
      empty_cache
    = (Return usage_entry, snd (fetch_report sample_service (VNum (PyInt 10)) empty_cache))
    /\ usage_entry !! "credits_used" = Some (VNum (PyInt 0)).
Proof.
  apply (report_without_credit_cost PlainSum sample_service
           (message_for (VNum (PyInt 10))) costless_report empty_cache
           (snd (fetch_report sample_service (VNum (PyInt 10)) empty_cache))
           (VNum (PyInt 123)) sample_timestamp (VStr greeting) (VNum (PyInt 10)));
    by vm_compute.
Defined.

(** C10: a message whose report_id is the empty string is resolved as if it
    had no report_id: the outcome is the same, it does not depend on the
    reports service, the cache and its counters are left as they were (no
    lookup took place), and a message with its three fields gets the local
    credits of its text and no report_name. *)
Theorem empty_report_id_is_local (impl : sum_impl) (requests_get : pyval -> http_result)
    (d : gmap string pyval) (st : lru_cache) :
  d !! "report_id" = Some (VStr []) ->
  process_message impl requests_get (VDict d) st
  = process_message impl requests_get (VDict (delete "report_id" d)) st
  /\ snd (process_message impl requests_get (VDict d) st) = st
  /\ (forall other_service,
        process_message impl other_service (VDict d) st
        = process_message impl requests_get (VDict d) st)
  /\ (forall message_id timestamp text,
        d !! "id" = Some message_id ->
        d !! "timestamp" = Some timestamp ->
        d !! "text" = Some (VStr text) ->
        exists usage_entry,
          process_message impl requests_get (VDict d) st = (Return usage_entry, st)
          /\ usage_entry !! "credits_used"
             = Some (VNum (calculate_credits impl text message_id))
          /\ usage_entry !! "report_name" = None).
Proof.
  intros Hrid.
  assert (Hfalsy : truthy (default VNone (d !! "report_id")) = false) by by rewrite Hrid.
  assert (Habsent : truthy (default VNone (delete "report_id" d !! "report_id")) = false)
    by by rewrite lookup_delete_eq.
  split; [|split; [|split]].
  - rewrite (process_message_local impl requests_get d st Hfalsy).
    rewrite (process_message_local impl requests_get _ st Habsent).
    by rewrite !lookup_delete_ne by done.
  - by rewrite (process_message_local impl requests_get d st Hfalsy).
  - intros other_service.
    by rewrite !(process_message_local impl _ d st Hfalsy).
  - intros message_id timestamp text Hid Hts Htext.
    exists (usage_entry_of message_id timestamp
              (VNum (calculate_credits impl text message_id)) VNone).
    rewrite (process_message_local impl requests_get d st Hfalsy), Hid, Hts, Htext.
    split; [done|]. split; [apply usage_entry_credits_used|apply usage_entry_report_name].
Qed.

Lemma empty_report_id_is_local_witness :
  process_message PlainSum sample_service (VDict (message_for (VStr []))) empty_cache
  = process_message PlainSum sample_service
      (VDict (delete "report_id" (message_for (VStr [])))) empty_cache
  /\ snd (process_message PlainSum sample_service (VDict (message_for (VStr [])))
            empty_cache)
     = empty_cache.
Proof.
  destruct (empty_report_id_is_local PlainSum sample_service (message_for (VStr []))
              empty_cache) as (Hsame & Hcache & _).
  - reflexivity.
  - split; [exact Hsame|exact Hcache].
Defined.

(** * Further properties of the code *)

(** ** Words *)

Lemma forallb_reverse {A : Type} (f : A -> bool) (l : list A) :
  forallb f (rev l) = forallb f l.
Proof.
  induction l as [|a l IH]; [done|].
  cbn [rev forallb]. rewrite forallb_app, IH. cbn [forallb].
  rewrite andb_true_r. apply andb_comm.
Qed.

Lemma findall_words_class (cur text : list N) :
  forallb word_char cur = true ->
  Forall (fun w => w <> [] /\ forallb word_char w = true) (findall_words cur text).
Proof.
  revert cur. induction text as [|c text IH]; intros cur Hcur; cbn [findall_words].
  - destruct cur as [|c0 cur]; [constructor|].
    constructor; [|constructor]. split.
    + intros Hnil. apply (f_equal (@length N)) in Hnil.
      rewrite length_rev in Hnil. discriminate.
    + by rewrite forallb_reverse.
  - destruct (word_char c) eqn:Hc.
    + apply IH. cbn [forallb]. by rewrite Hc.
    + destruct cur as [|c0 cur]; [by apply IH|].
      constructor; [|by apply IH]. split.
      * intros Hnil. apply (f_equal (@length N)) in Hnil.
        rewrite length_rev in Hnil. discriminate.
      * by rewrite forallb_reverse.
Qed.

Lemma findall_words_concat (cur text : list N) :
  concat (findall_words cur text) = rev cur ++ List.filter word_char text.
Proof.
  revert cur. induction text as [|c text IH]; intros cur; cbn [findall_words List.filter].
  - destruct cur as [|c0 cur]; [done|]. cbn [concat]. by rewrite !app_nil_r.
  - destruct (word_char c) eqn:Hc.
    + rewrite IH. cbn [rev]. by rewrite <- app_assoc.
    + destruct cur as [|c0 cur]; [by rewrite IH|].
      cbn [concat]. by rewrite IH.
Qed.

Lemma findall_words_split (cur a b : list N) (sep : N) :
  word_char sep = false ->
  findall_words cur (a ++ sep :: b) = findall_words cur a ++ findall_words [] b.
Proof.
  intros Hsep. revert cur. induction a as [|c a IH]; intros cur.
  - cbn [app findall_words]. rewrite Hsep. by destruct cur.
  - cbn [app findall_words]. destruct (word_char c); [apply IH|].
    destruct cur as [|c0 cur]; [apply IH|]. by rewrite IH.
Qed.

Lemma findall_words_run (cur w : list N) :
  forallb word_char w = true ->
  findall_words cur w = match rev cur ++ w with [] => [] | run => [run] end.
Proof.
  revert cur. induction w as [|c w IH]; intros cur Hw; cbn [findall_words].
  - rewrite app_nil_r. destruct cur as [|c0 cur]; [done|].
    destruct (rev (c0 :: cur)) eqn:Hrev; [|done].
    apply (f_equal (@length N)) in Hrev. rewrite length_rev in Hrev. discriminate.
  - cbn [forallb] in Hw. apply andb_true_iff in Hw as [Hc Hw].
    rewrite Hc, (IH _ Hw). cbn [rev]. by rewrite <- app_assoc.
Qed.

Lemma filter_all {A : Type} (f : A -> bool) (l : list A) :
  Forall (fun x => f x = true) l -> List.filter f l = l.
Proof.
  induction 1 as [|x l Hx _ IH]; [done|]. cbn [List.filter]. by rewrite Hx, IH.
Qed.

(** X1: every word that [extract_words] returns has at least one character
    and only characters of the class [[a-zA-Z'-]]. *)
Theorem extract_words_class (text : list N) :
  Forall (fun w => w <> [] /\ forallb word_char w = true) (extract_words text).
Proof.
  unfold extract_words.
  apply findall_words_class.
  reflexivity.
Qed.

(** X2: the words of a text, put end to end, are the class characters of
    the text in their order: [extract_words] loses none and adds none. *)
Theorem extract_words_concat (text : list N) :
  concat (extract_words text) = List.filter word_char text.
Proof.
  unfold extract_words.
  rewrite findall_words_concat.
  reflexivity.
Qed.

(** X3: [extract_words] cuts at every character outside the class and
    keeps a run of class characters whole: the words of [a + sep + b] are
    the words of [a] followed by the words of [b], and a non-empty text of
    class characters is its own single word. *)
Theorem extract_words_maximal_runs (a b : list N) (sep : N) :
  word_char sep = false ->
  extract_words (a ++ sep :: b) = extract_words a ++ extract_words b
  /\ (forallb word_char a = true -> a <> [] -> extract_words a = [a]).
Proof.
  intros Hsep. split; [by apply findall_words_split|].
  intros Ha Hne. unfold extract_words. rewrite (findall_words_run [] a Ha).
  cbn [rev app]. by destruct a.
Qed.

Lemma extract_words_maximal_runs_witness :
  extract_words (literal "it's" ++ 32%N :: literal "well-known")
  = extract_words (literal "it's") ++ extract_words (literal "well-known")
  /\ extract_words (literal "it's") = [literal "it's"].
Proof.
  destruct (extract_words_maximal_runs (literal "it's") (literal "well-known") 32%N)
    as [Hsplit Hrun]; [reflexivity|].
  split; [exact Hsplit|]. apply Hrun; [reflexivity|discriminate].
Defined.

(** X4: every word of a message is in exactly one of the three length
    buckets of [calculate_word_costs]: the bucket counts add up to the
    number of words. *)
Theorem extracted_words_one_bucket (text : list N) :
  (length (short_words (extract_words text))
   + length (medium_words (extract_words text))
   + length (long_words (extract_words text)))%nat
  = length (extract_words text).
Proof.
  rewrite buckets_partition. f_equal. apply filter_all.
  eapply Forall_impl; [apply (findall_words_class [] text eq_refl)|].
  intros w [Hne _]. by destruct w.
Qed.

(** ** Palindromes *)

Lemma cleaned_app (a b : list N) :
  sub_non_alnum (lower (a ++ b)) = sub_non_alnum (lower a) ++ sub_non_alnum (lower b).
Proof. unfold sub_non_alnum, lower. by rewrite flat_map_app, List.filter_app. Qed.

Lemma cleaned_cons (c : N) (text : list N) :
  sub_non_alnum (lower (c :: text))
  = sub_non_alnum (lower_char c) ++ sub_non_alnum (lower text).
Proof. unfold sub_non_alnum, lower. cbn [flat_map]. by rewrite List.filter_app. Qed.

(** What is left of one character is at most one character. *)
Lemma cleaned_char_rev (c : N) :
  rev (sub_non_alnum (lower_char c)) = sub_non_alnum (lower_char c).
Proof.
  unfold lower_char, sub_non_alnum.
  destruct (is_upper c); [|destruct (c =? 304)%N; [done|destruct (c =? 8490)%N; [done|]]];
    cbn [List.filter];
    match goal with |- context [if ?b then _ else _] => by destruct b end.
Qed.

Lemma cleaned_rev (text : list N) :
  sub_non_alnum (lower (rev text)) = rev (sub_non_alnum (lower text)).
Proof.
  induction text as [|c text IH]; [done|].
  cbn [rev].
  rewrite cleaned_app, IH, (cleaned_cons c text), (cleaned_cons c []), rev_app_distr.
  rewrite cleaned_char_rev. f_equal. apply app_nil_r.
Qed.

(** X5: a text is a palindrome exactly when the text read backwards is. *)
Theorem is_palindrome_rev (text : list N) :
  is_palindrome (rev text) = is_palindrome text.
Proof.
  unfold is_palindrome. rewrite cleaned_rev. apply bool_decide_ext.
  rewrite rev_involutive. split; intros H; by rewrite <- H at 1.
Qed.

(** X6: wrapping a palindrome in a text and the same text read backwards
    gives a palindrome; in particular a text followed by its mirror image
    always is one. *)
Theorem is_palindrome_wrap (text middle : list N) :
  is_palindrome middle = true ->
  is_palindrome (text ++ middle ++ rev text) = true.
Proof.
  intros Hmid. apply is_palindrome_spec in Hmid. apply is_palindrome_spec.
  rewrite !cleaned_app, cleaned_rev, !rev_app_distr, rev_involutive, <- Hmid.
  by rewrite app_assoc.
Qed.

Lemma is_palindrome_wrap_witness :
  is_palindrome (literal "Never odd, " ++ literal "X" ++ rev (literal "Never odd, ")) = true.
Proof. apply is_palindrome_wrap. reflexivity. Defined.

(** X7: a character that is not an ASCII letter or digit is ignored by
    [is_palindrome] wherever it stands, except for U+0130 and the Kelvin
    sign U+212A, which [lower] turns into the letters [i] and [k]. *)
Theorem is_palindrome_ignores (a b : list N) (c : N) :
  is_lower c || is_upper c || is_digit c = false ->
  c <> 304%N -> c <> 8490%N ->
  is_palindrome (a ++ c :: b) = is_palindrome (a ++ b)
  /\ sub_non_alnum (lower [304%N]) = literal "i"
  /\ sub_non_alnum (lower [8490%N]) = literal "k".
Proof.
  intros Hc H304 H8490. split; [|by split].
  unfold is_palindrome. rewrite !cleaned_app, cleaned_cons.
  assert (Hgone : sub_non_alnum (lower_char c) = []).
  { assert (Hup : is_upper c = false).
    { destruct (is_upper c); [by rewrite orb_true_r in Hc|done]. }
    apply N.eqb_neq in H304, H8490.
    unfold lower_char. rewrite Hup, H304, H8490.
    cbn [sub_non_alnum List.filter]. by rewrite Hc. }
  by rewrite Hgone.
Qed.

Lemma is_palindrome_ignores_witness :
  is_palindrome (literal "ab" ++ 44%N :: literal "a")
  = is_palindrome (literal "ab" ++ literal "a").
Proof.
  by destruct (is_palindrome_ignores (literal "ab") (literal "a") 44%N)
    as [Hsame _]; [reflexivity|discriminate|discriminate|].
Defined.

(** ** Positional vowels, again *)

Lemma filter_length_le {A : Type} (f g : A -> bool) (l : list A) :
  (forall x, f x = true -> g x = true) ->
  (length (List.filter f l) <= length (List.filter g l))%nat.
Proof.
  intros Hfg. induction l as [|x l IH]; [done|]. cbn [List.filter].
  destruct (f x) eqn:Hf.
  - rewrite (Hfg x Hf). cbn [length]. lia.
  - destruct (g x); cbn [length]; lia.
Qed.

Lemma multiples_of_3_upto (n : nat) :
  length (List.filter (fun i => (i mod 3 =? 0)%nat) (seq 1 n)) = (n / 3)%nat.
Proof.
  induction n as [|n IH]; [done|].
  rewrite seq_S, List.filter_app, length_app, IH. cbn [List.filter Nat.add].
  pose proof (Nat.div_mod_eq n 3) as Hn.
  pose proof (Nat.div_mod_eq (S n) 3) as HSn.
  pose proof (Nat.mod_upper_bound n 3) as Hr.
  pose proof (Nat.mod_upper_bound (S n) 3) as Hr'.
  destruct (Nat.eqb_spec (S n mod 3) 0) as [Hz|Hnz]; cbn [length]; lia.
Qed.

(** X8: there is at most one vowel hit for every three characters, and
    [calculate_third_vowel_cost] returns the int [0], not a float, exactly
    when there is no hit. *)
Theorem third_vowel_hits_bound (impl : sum_impl) (text : list N) :
  (positional_vowel_hits text <= length text / 3)%nat
  /\ (calculate_third_vowel_cost impl text = PyInt 0 <-> positional_vowel_hits text = 0%nat).
Proof.
  split.
  - unfold positional_vowel_hits. rewrite <- multiples_of_3_upto.
    apply filter_length_le. intros i Hi. unfold vowel_hit in Hi.
    by apply andb_true_iff in Hi as [Hi _].
  - unfold calculate_third_vowel_cost.
    rewrite cost_third_vowel, map_const_replicate, third_vowel_hits.
    destruct (positional_vowel_hits text) as [|hits]; [done|].
    cbn [replicate py_sum sum_int]. split; intros H; discriminate.
Qed.

(** ** The report cache *)

Lemma compare_cont_same (m : positive) (c : comparison) : Pos.compare_cont c m m = c.
Proof. revert c. induction m as [m IH|m IH|]; intros c; simpl; auto. Qed.

Lemma float_eqb_refl (f : spec_float) : f <> S754_nan -> Float.eqb f f = true.
Proof.
  destruct f as [s|s| |s m e]; intros Hnan; try done.
  - by destruct s.
  - unfold Float.eqb, SFeqb.
    change (SFcompare (S754_finite s m e) (S754_finite s m e))
      with (Some match s, s with
                 | true, false => Lt
                 | false, true => Gt
                 | false, false =>
                     match e ?= e with
                     | Lt => Lt | Gt => Gt | Eq => Pos.compare_cont Eq m m
                     end
                 | true, true =>
                     match e ?= e with
                     | Lt => Gt | Gt => Lt | Eq => CompOpp (Pos.compare_cont Eq m m)
                     end
                 end).
    rewrite Z.compare_refl, compare_cont_same. by destruct s.
Qed.

Lemma same_key_refl (key : pyval) : hashable key = true -> same_key key key = true.
Proof.
  destruct key as [|b|[z|f]|s|items|d]; intros Hhash; try done.
  - by apply bool_decide_eq_true_2.
  - apply Z.eqb_refl.
  - destruct f as [s|s| |s m e]; try done.
    + by destruct s.
    + by apply (float_eqb_refl (S754_finite s m e)).
  - by apply bool_decide_eq_true_2.
Qed.

Lemma cache_find_Some (key : pyval) (es rest : list (pyval * pyval)) (hit : pyval * pyval) :
  cache_find key es = Some (hit, rest) ->
  same_key key (fst hit) = true /\ length (hit :: rest) = length es.
Proof.
  revert rest. induction es as [|kv es IH]; intros rest Hfind; [done|].
  cbn [cache_find] in Hfind. destruct (same_key key (fst kv)) eqn:Hkey.
  - by inversion Hfind; subst.
  - destruct (cache_find key es) as [[hit' rest']|]; [|done].
    inversion Hfind; subst. destruct (IH rest' eq_refl) as [Hsame Hlen].
    split; [done|]. cbn [length] in *. lia.
Qed.

Lemma cache_find_head (key : pyval) (kv : pyval * pyval) (rest : list (pyval * pyval)) :
  same_key key (fst kv) = true -> cache_find key (kv :: rest) = Some (kv, rest).
Proof. intros Hkey. cbn [cache_find]. by rewrite Hkey. Qed.

Lemma take_removelast {A : Type} (l : list A) (n : nat) :
  length l = S n -> take n l = removelast l.
Proof.
  revert n. induction l as [|x l IH]; intros n Hlen; [done|].
  destruct l as [|y l]; [by destruct n|].
  destruct n as [|n]; [done|]. cbn [take]. rewrite (IH n) by (cbn [length] in *; lia).
  reflexivity.
Qed.

Lemma fetch_report_raises (requests_get : pyval -> http_result) (report_id : pyval)
    (st st' : lru_cache) (e : exn) :
  fetch_report requests_get report_id st = (Raise e, st') ->
  (e = TypeError /\ hashable report_id = false /\ st' = st)
  \/ (exists text, e = Exception text)
     /\ hashable report_id = true
     /\ cache_find report_id (entries st) = None
     /\ st' = count_miss st.
Proof.
  unfold fetch_report, fetch_report_wrapped. intros Hfetch.
  destruct (hashable report_id); [|left; by inversion Hfetch].
  right. destruct (cache_find report_id (entries st)) as [[hit rest]|]; [done|].
  destruct (requests_get report_id) as [status_code json|].
  - destruct (status_code =? 200); [destruct json; inversion Hfetch; eauto|].
    destruct (status_code =? 404); [done|].
    destruct (status_code =? 403); [inversion Hfetch; eauto|].
    destruct (500 <=? status_code); inversion Hfetch; eauto.
  - inversion Hfetch; eauto.
Qed.

(** X9: once [fetch_report] has returned a result for a report_id, the next
    call for it returns the same result from the cache, whatever the service
    would answer by then (a report that was not found stays not found): the
    hit is counted and nothing else changes. *)
Theorem fetch_report_again (requests_get later_service : pyval -> http_result)
    (report_id result : pyval) (st st' : lru_cache) :
  fetch_report requests_get report_id st = (Return result, st') ->
  fetch_report later_service report_id st'
  = (Return result,
     {| entries := entries st'; hits := S (hits st'); misses := misses st' |}).
Proof.
  unfold fetch_report. intros Hfetch.
  destruct (hashable report_id) eqn:Hhash; [|done].
  destruct (cache_find report_id (entries st)) as [[hit rest]|] eqn:Hfind.
  - inversion Hfetch; subst. cbn [entries hits misses].
    destruct (cache_find_Some _ _ _ _ Hfind) as [Hkey _].
    by rewrite (cache_find_head _ _ _ Hkey).
  - destruct (fetch_report_wrapped requests_get report_id) as [v|e]; [|done].
    inversion Hfetch; subst. cbn [entries hits misses maxsize take].
    by rewrite (cache_find_head report_id (report_id, result) _ (same_key_refl _ Hhash)).
Qed.

Lemma fetch_report_again_witness :
  fetch_report (fun _ => Response 200 (Some (VDict sample_report))) (VNum (PyInt 8))
    (snd (fetch_report sample_service (VNum (PyInt 8)) empty_cache))
  = (Return VNone,
     {| entries := [(VNum (PyInt 8), VNone)]; hits := 1; misses := 1 |}).
Proof.
  apply (fetch_report_again sample_service
           (fun _ => Response 200 (Some (VDict sample_report)))
           (VNum (PyInt 8)) VNone empty_cache).
  reflexivity.
Defined.

(** X10: an exception of [fetch_report] is never cached: the entries are
    left as they were, and when the service was reached (the report_id is
    hashable) only the miss is counted, so that the next call for the same
    report_id asks the service again. *)
Theorem fetch_report_failure_not_cached (requests_get later_service : pyval -> http_result)
    (report_id : pyval) (st st' : lru_cache) (e : exn) :
  fetch_report requests_get report_id st = (Raise e, st') ->
  entries st' = entries st
  /\ hits st' = hits st
  /\ (hashable report_id = true ->
      misses st' = S (misses st)
      /\ fetch_report later_service report_id st'
         = match fetch_report_wrapped later_service report_id with
           | Return result =>
               (Return result,
                {| entries := take maxsize ((report_id, result) :: entries st);
                   hits := hits st; misses := S (S (misses st)) |})
           | Raise e' => (Raise e', count_miss st')
           end).
Proof.
  intros Hfetch.
  destruct (fetch_report_raises _ _ _ _ _ Hfetch)
    as [(_ & Hhash & ->)|(_ & Hhash & Hmiss & ->)].
  - split; [done|]. split; [done|]. by rewrite Hhash.
  - split; [done|]. split; [done|]. intros _. split; [done|].
    unfold fetch_report. rewrite Hhash. cbn [count_miss entries hits misses].
    rewrite Hmiss. by destruct (fetch_report_wrapped later_service report_id).
Qed.

Lemma fetch_report_failure_not_cached_witness :
  entries (snd (fetch_report sample_service (VNum (PyInt 11)) empty_cache)) = []
  /\ fst (fetch_report (fun _ => Response 200 (Some (VDict sample_report)))
            (VNum (PyInt 11))
            (snd (fetch_report sample_service (VNum (PyInt 11)) empty_cache)))
     = Return (VDict sample_report).
Proof.
  destruct (fetch_report_failure_not_cached sample_service
              (fun _ => Response 200 (Some (VDict sample_report)))
              (VNum (PyInt 11)) empty_cache
              (snd (fetch_report sample_service (VNum (PyInt 11)) empty_cache))
              (Exception AccessForbidden) eq_refl) as (Hentries & _ & Hnext).
  split; [exact Hentries|].
  destruct (Hnext eq_refl) as [_ Hagain]. by rewrite Hagain.
Defined.

(** X11: a miss that returns a result puts it in front of the cache; when
    the cache already holds [maxsize] entries, the least recently used one,
    which is the last, is dropped, and no other. *)
Theorem fetch_report_evicts_last (requests_get : pyval -> http_result)
    (report_id result : pyval) (st : lru_cache) :
  hashable report_id = true ->
  cache_find report_id (entries st) = None ->
  fetch_report_wrapped requests_get report_id = Return result ->
  (length (entries st) <= maxsize)%nat ->
  fetch_report requests_get report_id st
  = (Return result,
     {| entries :=
          (report_id, result)
          :: (if (length (entries st) =? maxsize)%nat
              then removelast (entries st) else entries st);
        hits := hits st; misses := S (misses st) |}).
Proof.
  intros Hhash Hmiss Hwrapped Hlen. unfold fetch_report.
  rewrite Hhash, Hmiss, Hwrapped. do 2 f_equal. unfold maxsize in *. cbn [take]. f_equal.
  destruct (Nat.eqb_spec (length (entries st)) 100) as [Hfull|Hroom].
  - by apply take_removelast.
  - apply take_ge. lia.
Qed.

Lemma fetch_report_evicts_last_witness :
  fetch_report sample_service (VNum (PyInt 7)) full_cache
  = (Return (VDict sample_report),
     {| entries := (VNum (PyInt 7), VDict sample_report) :: removelast (entries full_cache);
        hits := 0; misses := S maxsize |}).
Proof.
  apply (fetch_report_evicts_last sample_service (VNum (PyInt 7)) (VDict sample_report)
           full_cache); by vm_compute.
Defined.

(** ** What resolving messages does to the cache *)

Section CacheInvariants.

Variable impl : sum_impl.
Variable requests_get : pyval -> http_result.

Lemma process_report_state (report_id message_text message_id : pyval) (st : lru_cache) :
  snd (process_report impl requests_get report_id message_text message_id st)
  = snd (fetch_report requests_get report_id st).
Proof.
  rewrite process_report_eq.
  destruct (fetch_report requests_get report_id st) as [[report_data|e] st']; [|done].
  destruct (truthy report_data); [by destruct report_data|by destruct message_text].
Qed.

(** Resolving a message leaves the cache alone or calls [fetch_report] once. *)
Lemma process_message_state (message : pyval) (st : lru_cache) :
  snd (process_message impl requests_get message st) = st
  \/ exists report_id,
       snd (process_message impl requests_get message st)
       = snd (fetch_report requests_get report_id st).
Proof.
  destruct message as [|b|x|s|items|d]; try (by left).
  destruct (truthy (default VNone (d !! "report_id"))) eqn:Htruthy;
    [|left; by rewrite process_message_local].
  rewrite process_message_missing.
  destruct (d !! "id") as [message_id|] eqn:Hid; [|by left].
  destruct (d !! "timestamp") as [timestamp|] eqn:Hts; [|by left].
  destruct (d !! "text") as [message_text|] eqn:Htext; [|by left].
  destruct (d !! "report_id") as [report_id|] eqn:Hrid; [|done].
  right. exists report_id.
  rewrite (process_message_report impl requests_get d st _ _ _ _ Hid Hts Htext Hrid Htruthy).
  rewrite <- (process_report_state report_id message_text message_id st).
  destruct (process_report impl requests_get report_id message_text message_id st)
    as [[[report_name credits_used]|e] st']; [done|by destruct e].
Qed.

Lemma fetch_report_bound (report_id : pyval) (st : lru_cache) :
  (length (entries st) <= maxsize)%nat ->
  (length (entries (snd (fetch_report requests_get report_id st))) <= maxsize)%nat.
Proof.
  intros Hlen. unfold fetch_report. destruct (hashable report_id); [|done].
  destruct (cache_find report_id (entries st)) as [[hit rest]|] eqn:Hfind.
  - destruct (cache_find_Some _ _ _ _ Hfind) as [_ Hsame]. cbn [snd entries]. lia.
  - destruct (fetch_report_wrapped requests_get report_id); cbn [snd entries]; [|done].
    rewrite length_take. lia.
Qed.


Lemma process_messages_cons (message : pyval) (rest : list pyval) (st : lru_cache) :
  process_messages impl requests_get (message :: rest) st
  = match process_message impl requests_get message st with
    | (Return usage_entry, st1) =>
        match process_messages impl requests_get rest st1 with
        | (Return usage_data, st2) => (Return (usage_entry :: usage_data), st2)
        | (Raise e, st2) => (Raise e, st2)
        end
    | (Raise e, st1) => (Raise e, st1)
    end.
Proof.
  cbn [process_messages]. run.
  destruct (process_message impl requests_get message st) as [[u|e] st1]; [|done].
  by destruct (process_messages impl requests_get rest st1) as [[us|e] st2].
Qed.

(** X12: the cache never grows beyond [maxsize] entries, whatever batch is
    resolved and however it ends. *)
Theorem cache_stays_bounded (messages : list pyval) (st : lru_cache) :
  (length (entries st) <= maxsize)%nat ->
  (length (entries (snd (process_messages impl requests_get messages st))) <= maxsize)%nat.
Proof.
  revert st. induction messages as [|message messages IH]; intros st Hlen; [done|].
  rewrite process_messages_cons.
  assert (Hstep : (length (entries (snd (process_message impl requests_get message st)))
                   <= maxsize)%nat).
  { destruct (process_message_state message st) as [->|[report_id ->]];
      [done|by apply fetch_report_bound]. }
  destruct (process_message impl requests_get message st) as [[u|e] st1]; [|done].
  specialize (IH st1 Hstep).
  by destruct (process_messages impl requests_get messages st1) as [[us|e] st2].
Qed.


End CacheInvariants.

Lemma cache_stays_bounded_witness :
  (length (entries (snd (process_messages PlainSum sample_service
                           [VDict (message_for (VNum (PyInt 7)))] full_cache)))
   <= maxsize)%nat.
Proof.
  apply (cache_stays_bounded PlainSum sample_service
           [VDict (message_for (VNum (PyInt 7)))] full_cache).
  by vm_compute.
Defined.

(** ** Outcomes of one message *)

Lemma usage_entry_keys (message_id timestamp credits_used report_name : pyval)
    (key : string) :
  is_Some (usage_entry_of message_id timestamp credits_used report_name !! key) ->
  key = "message_id" \/ key = "timestamp" \/ key = "credits_used" \/ key = "report_name".
Proof.
  unfold usage_entry_of. intros [v Hv].
  destruct (truthy report_name);
    repeat (apply lookup_insert_Some in Hv as [[<- _]|[_ Hv]]; [by auto|]);
    by rewrite lookup_empty in Hv.
Qed.

Section Outcomes.

Variable impl : sum_impl.
Variable requests_get : pyval -> http_result.


(** How a message comes to a usage entry: from its three fields, and either
    locally or through [process_report]. *)
Lemma process_message_Return (message : pyval) (st st' : lru_cache)
    (usage_entry : gmap string pyval) :
  process_message impl requests_get message st = (Return usage_entry, st') ->
  exists d message_id timestamp message_text credits_used report_name,
    message = VDict d
    /\ d !! "id" = Some message_id
    /\ d !! "timestamp" = Some timestamp
    /\ d !! "text" = Some message_text
    /\ usage_entry = usage_entry_of message_id timestamp credits_used report_name
    /\ ((truthy (default VNone (d !! "report_id")) = false
         /\ report_name = VNone /\ st' = st
         /\ exists text, message_text = VStr text
                        /\ credits_used = VNum (calculate_credits impl text message_id))
        \/ (exists report_id,
              d !! "report_id" = Some report_id /\ truthy report_id = true
              /\ process_report impl requests_get report_id message_text message_id st
                 = (Return (report_name, credits_used), st'))).
Proof.
  intros Hreturn. destruct message as [|b|x|s|items|d]; try done.
  rewrite process_message_missing in Hreturn.
  destruct (d !! "id") as [message_id|] eqn:Hid; [|done].
  destruct (d !! "timestamp") as [timestamp|] eqn:Hts; [|done].
  destruct (d !! "text") as [message_text|] eqn:Htext; [|done].
  destruct (truthy (default VNone (d !! "report_id"))) eqn:Htruthy.
  - destruct (d !! "report_id") as [report_id|] eqn:Hrid; [|done].
    rewrite (process_message_report impl requests_get d st _ _ _ _
               Hid Hts Htext Hrid Htruthy) in Hreturn.
    destruct (process_report impl requests_get report_id message_text message_id st)
      as [[[report_name credits_used]|e] st1] eqn:Hreport; [|by destruct e].
    inversion Hreturn; subst.
    exists d, message_id, timestamp, message_text, credits_used, report_name. eauto 10.
  - rewrite (process_message_local impl requests_get d st Htruthy), Hid, Hts, Htext
      in Hreturn.
    destruct message_text as [|b|x|text|items|d']; try done.
    inversion Hreturn; subst.
    exists d, message_id, timestamp, (VStr text),
      (VNum (calculate_credits impl text message_id)), VNone.
    do 5 (split; [done|]). left. eauto 10.
Qed.



(** X15: a usage entry carries the message's [id] as [message_id] and its
    [timestamp] untouched, always has [credits_used], and has no key besides
    these three and [report_name]: nothing else of the message gets into it. *)
Theorem usage_entry_shape (message : pyval) (st st' : lru_cache)
    (usage_entry : gmap string pyval) :
  process_message impl requests_get message st = (Return usage_entry, st') ->
  exists d,
    message = VDict d
    /\ usage_entry !! "message_id" = d !! "id"
    /\ usage_entry !! "timestamp" = d !! "timestamp"
    /\ is_Some (usage_entry !! "credits_used")
    /\ (forall key, is_Some (usage_entry !! key) ->
         key = "message_id" \/ key = "timestamp" \/ key = "credits_used"
         \/ key = "report_name").
Proof.
  intros Hreturn.
  destruct (process_message_Return _ _ _ _ Hreturn)
    as (d & message_id & timestamp & message_text & credits_used & report_name
        & -> & Hid & Hts & _ & -> & _).
  exists d. rewrite usage_entry_message_id, usage_entry_timestamp, usage_entry_credits_used.
  split; [done|]. split; [done|]. split; [done|]. split; [by eexists|].
  apply usage_entry_keys.
Qed.

(** X16: for a message without a report_id, or with a falsy one (null, an
    empty string, zero), the entry has credits_used of at least 1, computed
    from the text alone, and no report_name; the cache is not touched. *)
Theorem local_credits_at_least_1 (d : gmap string pyval) (st st' : lru_cache)
    (usage_entry : gmap string pyval) :
  truthy (default VNone (d !! "report_id")) = false ->
  process_message impl requests_get (VDict d) st = (Return usage_entry, st') ->
  st' = st
  /\ usage_entry !! "report_name" = None
  /\ exists credits,
       usage_entry !! "credits_used" = Some (VNum credits)
       /\ py_le (PyInt 1) credits = true.
Proof.
  intros Hfalsy Hreturn.
  rewrite (process_message_local impl requests_get d st Hfalsy) in Hreturn.
  destruct (d !! "id") as [message_id|]; [|done].
  destruct (d !! "timestamp") as [timestamp|]; [|done].
  destruct (d !! "text") as [[|b|x|text|items|d']|]; try done.
  inversion Hreturn; subst. split; [done|].
  rewrite usage_entry_report_name, usage_entry_credits_used.
  split; [done|]. eexists. split; [done|]. apply calculate_credits_ge_1.
Qed.

(** X17: a lookup that returns a falsy body (an empty object, an empty
    list, null, zero) is treated like a report that was not found: the
    credits are those of the text, at least 1, and the entry has no
    report_name. *)
Theorem falsy_report_falls_back (d : gmap string pyval) (st st' : lru_cache)
    (message_id timestamp report_id report_data : pyval) (text : list N) :
  d !! "id" = Some message_id ->
  d !! "timestamp" = Some timestamp ->
  d !! "text" = Some (VStr text) ->
  d !! "report_id" = Some report_id ->
  truthy report_id = true ->
  fetch_report requests_get report_id st = (Return report_data, st') ->
  truthy report_data = false ->
  process_message impl requests_get (VDict d) st
  = (Return (usage_entry_of message_id timestamp
               (VNum (calculate_credits impl text message_id)) VNone), st')
  /\ py_le (PyInt 1) (calculate_credits impl text message_id) = true.
Proof.
  intros Hid Hts Htext Hrid Htruthy Hfetch Hfalsy.
  split; [|apply calculate_credits_ge_1].
  rewrite (process_message_report impl requests_get d st _ _ _ _ Hid Hts Htext Hrid Htruthy).
  by rewrite process_report_eq, Hfetch, Hfalsy.
Qed.

(** X18: a Report without a name (or with a null one) still sets the
    credits: the entry has the Report's credit_cost and no report_name. *)
Theorem nameless_report_sets_credits (d report : gmap string pyval) (st st' : lru_cache)
    (message_id timestamp message_text report_id credit_cost : pyval) :
  d !! "id" = Some message_id ->
  d !! "timestamp" = Some timestamp ->
  d !! "text" = Some message_text ->
  d !! "report_id" = Some report_id ->
  truthy report_id = true ->
  fetch_report requests_get report_id st = (Return (VDict report), st') ->
  report !! "credit_cost" = Some credit_cost ->
  default VNone (report !! "name") = VNone ->
  exists usage_entry,
    process_message impl requests_get (VDict d) st = (Return usage_entry, st')
    /\ usage_entry !! "credits_used" = Some credit_cost
    /\ usage_entry !! "report_name" = None.
Proof.
  intros Hid Hts Htext Hrid Htruthy Hfetch Hcost Hname.
  exists (usage_entry_of message_id timestamp credit_cost VNone).
  rewrite (process_message_report impl requests_get d st _ _ _ _ Hid Hts Htext Hrid Htruthy).
  rewrite process_report_eq, Hfetch, (truthy_dict report "credit_cost" _ Hcost), Hname, Hcost.
  split; [done|]. split; [apply usage_entry_credits_used|apply usage_entry_report_name].
Qed.

(** X19: a lookup that returns a truthy body that is not an object (a
    non-empty list or string, a number, true) makes the message, and with it
    the batch, end in an [AttributeError]: the body has no [.get]. *)
Theorem non_object_report_raises (d : gmap string pyval) (st st' : lru_cache)
    (message_id timestamp message_text report_id report_data : pyval)
    (after : list pyval) :
  d !! "id" = Some message_id ->
  d !! "timestamp" = Some timestamp ->
  d !! "text" = Some message_text ->
  d !! "report_id" = Some report_id ->
  truthy report_id = true ->
  fetch_report requests_get report_id st = (Return report_data, st') ->
  truthy report_data = true ->
  (forall report, report_data <> VDict report) ->
  process_message impl requests_get (VDict d) st = (Raise AttributeError, st')
  /\ process_messages impl requests_get (VDict d :: after) st = (Raise AttributeError, st').
Proof.
  intros Hid Hts Htext Hrid Htruthy Hfetch Hbody Hnot.
  assert (Hmessage : process_message impl requests_get (VDict d) st
                     = (Raise AttributeError, st')).
  { rewrite (process_message_report impl requests_get d st _ _ _ _
               Hid Hts Htext Hrid Htruthy).
    rewrite process_report_eq, Hfetch, Hbody.
    destruct report_data as [|b|x|s|items|report]; try done. by destruct (Hnot report). }
  split; [done|]. by rewrite process_messages_cons, Hmessage.
Qed.

(** X20: a report_id that cannot be hashed (a non-empty list or object)
    ends the message in a [TypeError] raised by the cache decorator: the
    service is not asked and the cache and its counters are untouched. *)
Theorem unhashable_report_id_raises (d : gmap string pyval) (st : lru_cache)
    (message_id timestamp message_text report_id : pyval) :
  d !! "id" = Some message_id ->
  d !! "timestamp" = Some timestamp ->
  d !! "text" = Some message_text ->
  d !! "report_id" = Some report_id ->
  truthy report_id = true ->
  hashable report_id = false ->
  process_message impl requests_get (VDict d) st = (Raise TypeError, st).
Proof.
  intros Hid Hts Htext Hrid Htruthy Hhash.
  rewrite (process_message_report impl requests_get d st _ _ _ _ Hid Hts Htext Hrid Htruthy).
  rewrite process_report_eq. unfold fetch_report. by rewrite Hhash.
Qed.

End Outcomes.


Lemma usage_entry_shape_witness :
  exists d,
    VDict (message_for (VNum (PyInt 7))) = VDict d
    /\ usage_entry_of (VNum (PyInt 123)) sample_timestamp (VNum (PyInt 10))
         (VStr (literal "Sample Report")) !! "message_id" = d !! "id"
    /\ usage_entry_of (VNum (PyInt 123)) sample_timestamp (VNum (PyInt 10))
         (VStr (literal "Sample Report")) !! "timestamp" = d !! "timestamp"
    /\ is_Some (usage_entry_of (VNum (PyInt 123)) sample_timestamp (VNum (PyInt 10))
                  (VStr (literal "Sample Report")) !! "credits_used")
    /\ (forall key,
          is_Some (usage_entry_of (VNum (PyInt 123)) sample_timestamp (VNum (PyInt 10))
                     (VStr (literal "Sample Report")) !! key) ->
          key = "message_id" \/ key = "timestamp" \/ key = "credits_used"
          \/ key = "report_name").
Proof.
  apply (usage_entry_shape PlainSum sample_service (VDict (message_for (VNum (PyInt 7))))
           empty_cache (snd (fetch_report sample_service (VNum (PyInt 7)) empty_cache))).
  reflexivity.
Defined.

Lemma local_credits_at_least_1_witness :
  empty_cache = empty_cache
  /\ usage_entry_of (VNum (PyInt 123)) sample_timestamp (VNum (PyInt 1)) VNone
       !! "report_name" = None
  /\ exists credits,
       usage_entry_of (VNum (PyInt 123)) sample_timestamp (VNum (PyInt 1)) VNone
         !! "credits_used" = Some (VNum credits)
       /\ py_le (PyInt 1) credits = true.
Proof.
  apply (local_credits_at_least_1 PlainSum sample_service plain_message
           empty_cache empty_cache); reflexivity.
Defined.

Lemma falsy_report_falls_back_witness :
  process_message PlainSum odd_service (VDict (message_for (VNum (PyInt 20)))) empty_cache
  = (Return (usage_entry_of (VNum (PyInt 123)) sample_timestamp
               (VNum (calculate_credits PlainSum greeting (VNum (PyInt 123)))) VNone),
     snd (fetch_report odd_service (VNum (PyInt 20)) empty_cache))
  /\ py_le (PyInt 1) (calculate_credits PlainSum greeting (VNum (PyInt 123))) = true.
Proof.
  apply (falsy_report_falls_back PlainSum odd_service (message_for (VNum (PyInt 20)))
           empty_cache (snd (fetch_report odd_service (VNum (PyInt 20)) empty_cache))
           (VNum (PyInt 123)) sample_timestamp (VNum (PyInt 20)) (VDict ∅) greeting);
    reflexivity.
Defined.

Lemma nameless_report_sets_credits_witness :
  exists usage_entry,
    process_message PlainSum odd_service (VDict (message_for (VNum (PyInt 22)))) empty_cache
    = (Return usage_entry, snd (fetch_report odd_service (VNum (PyInt 22)) empty_cache))
    /\ usage_entry !! "credits_used" = Some (VNum (PyFloat (Float.of_ratio 45 10)))
    /\ usage_entry !! "report_name" = None.
Proof.
  apply (nameless_report_sets_credits PlainSum odd_service
           (message_for (VNum (PyInt 22))) priced_report empty_cache
           (snd (fetch_report odd_service (VNum (PyInt 22)) empty_cache))
           (VNum (PyInt 123)) sample_timestamp (VStr greeting) (VNum (PyInt 22))
           (VNum (PyFloat (Float.of_ratio 45 10))));
    reflexivity.
Defined.

Lemma non_object_report_raises_witness :
  process_message PlainSum odd_service (VDict (message_for (VNum (PyInt 21)))) empty_cache
  = (Raise AttributeError, snd (fetch_report odd_service (VNum (PyInt 21)) empty_cache))
  /\ process_messages PlainSum odd_service
       [VDict (message_for (VNum (PyInt 21))); VDict plain_message] empty_cache
     = (Raise AttributeError, snd (fetch_report odd_service (VNum (PyInt 21)) empty_cache)).
Proof.
  apply (non_object_report_raises PlainSum odd_service (message_for (VNum (PyInt 21)))
           empty_cache (snd (fetch_report odd_service (VNum (PyInt 21)) empty_cache))
           (VNum (PyInt 123)) sample_timestamp (VStr greeting) (VNum (PyInt 21))
           (VList [VNum (PyInt 1)]) [VDict plain_message]);
    try reflexivity.
  intros report. discriminate.
Defined.

Lemma unhashable_report_id_raises_witness :
  process_message PlainSum sample_service
    (VDict (message_for (VList [VNum (PyInt 7)]))) empty_cache
  = (Raise TypeError, empty_cache).
Proof.
  apply (unhashable_report_id_raises PlainSum sample_service
           (message_for (VList [VNum (PyInt 7)])) empty_cache
           (VNum (PyInt 123)) sample_timestamp (VStr greeting) (VList [VNum (PyInt 7)]));
    reflexivity.
Defined.

(** ** Batches *)

Section Batches.

Variable impl : sum_impl.
Variable requests_get : pyval -> http_result.

(** X21: a batch ends with the exception of its first message that fails,
    whatever the exception, in the state that message left: the messages
    after it are not resolved and no list of entries is returned. *)
Theorem first_failure_aborts (before after : list pyval) (message : pyval)
    (usage_before : list (gmap string pyval)) (st st1 st2 : lru_cache) (e : exn) :
  process_messages impl requests_get before st = (Return usage_before, st1) ->
  process_message impl requests_get message st1 = (Raise e, st2) ->
  process_messages impl requests_get (before ++ message :: after) st = (Raise e, st2).
Proof.
  intros Hbefore Hmessage.
  by rewrite process_messages_app, Hbefore, process_messages_cons, Hmessage.
Qed.

(** X22: a batch that is resolved gives one entry for each message, in the
    order of the messages: each entry carries the [id] and the [timestamp]
    of the message at its place. *)
Theorem one_entry_per_message (messages : list pyval)
    (usage_data : list (gmap string pyval)) (st st' : lru_cache) :
  process_messages impl requests_get messages st = (Return usage_data, st') ->
  Forall2
    (fun message usage_entry =>
       exists d, message = VDict d
                 /\ usage_entry !! "message_id" = d !! "id"
                 /\ usage_entry !! "timestamp" = d !! "timestamp")
    messages usage_data.
Proof.
  revert st usage_data. induction messages as [|message messages IH];
    intros st usage_data Hreturn.
  - cbn [process_messages] in Hreturn. inversion Hreturn. constructor.
  - rewrite process_messages_cons in Hreturn.
    destruct (process_message impl requests_get message st) as [[u|e] st1] eqn:Hmessage;
      [|done].
    destruct (process_messages impl requests_get messages st1) as [[us|e] st2] eqn:Hrest;
      [|done].
    inversion Hreturn; subst. constructor; [|by eapply IH].
    destruct (process_message_Return _ _ _ _ _ _ Hmessage)
      as (d & message_id & timestamp & message_text & credits_used & report_name
          & -> & Hid & Hts & _ & -> & _).
    exists d. by rewrite usage_entry_message_id, usage_entry_timestamp.
Qed.

(** X23: a batch in which no message has a truthy report_id is resolved
    without the reports service: the cache and its counters are left as
    they were, and the outcome is the same whatever the service and the
    cache are. *)
Theorem batch_without_reports (messages : list pyval) (st : lru_cache) :
  Forall (fun message =>
            forall d, message = VDict d ->
                      truthy (default VNone (d !! "report_id")) = false) messages ->
  snd (process_messages impl requests_get messages st) = st
  /\ (forall other_service other_cache,
        fst (process_messages impl other_service messages other_cache)
        = fst (process_messages impl requests_get messages st)).
Proof.
  intros Hlocal. revert st. induction Hlocal as [|message messages Hmessage _ IH];
    intros st; [done|].
  assert (Hstep : forall service cache,
            process_message impl service message cache
            = (fst (process_message impl requests_get message st), cache)).
  { intros service cache. destruct message as [|b|x|s|items|d]; try done.
    by rewrite !process_message_local by by apply Hmessage. }
  destruct (IH st) as [IHstate IHsame]. split.
  - rewrite process_messages_cons, (Hstep requests_get st).
    destruct (fst (process_message impl requests_get message st)); [|done].
    destruct (process_messages impl requests_get messages st) as [[us|e] st2];
      by cbn [snd] in *.
  - intros other_service other_cache.
    rewrite !process_messages_cons, (Hstep other_service other_cache),
      (Hstep requests_get st).
    destruct (fst (process_message impl requests_get message st)); [|done].
    specialize (IHsame other_service other_cache).
    destruct (process_messages impl other_service messages other_cache) as [[us|e] st2],
      (process_messages impl requests_get messages st) as [[us'|e'] st3];
      cbn [fst] in *; by inversion IHsame.
Qed.

End Batches.

Lemma first_failure_aborts_witness :
  process_messages PlainSum sample_service
    ([VDict plain_message] ++ VDict (delete "timestamp" plain_message)
       :: [VDict (message_for (VNum (PyInt 7)))]) empty_cache
  = (Raise (ValueError (MissingKey "timestamp")), empty_cache).
Proof.
  apply (first_failure_aborts PlainSum sample_service
           [VDict plain_message] [VDict (message_for (VNum (PyInt 7)))]
           (VDict (delete "timestamp" plain_message))
           [usage_entry_of (VNum (PyInt 123)) sample_timestamp (VNum (PyInt 1)) VNone]
           empty_cache empty_cache empty_cache (ValueError (MissingKey "timestamp")));
    reflexivity.
Defined.

Lemma one_entry_per_message_witness :
  Forall2
    (fun message usage_entry =>
       exists d, message = VDict d
                 /\ usage_entry !! "message_id" = d !! "id"
                 /\ usage_entry !! "timestamp" = d !! "timestamp")
    [VDict plain_message; VDict (message_for (VNum (PyInt 7)))]
    [usage_entry_of (VNum (PyInt 123)) sample_timestamp (VNum (PyInt 1)) VNone;
     usage_entry_of (VNum (PyInt 123)) sample_timestamp (VNum (PyInt 10))
       (VStr (literal "Sample Report"))].
Proof.
  apply (one_entry_per_message PlainSum sample_service
           [VDict plain_message; VDict (message_for (VNum (PyInt 7)))] _ empty_cache
           (snd (fetch_report sample_service (VNum (PyInt 7)) empty_cache))).
  reflexivity.
Defined.

Lemma batch_without_reports_witness :
  snd (process_messages PlainSum sample_service
         [VDict plain_message; VDict (message_for (VStr []))] full_cache)
  = full_cache.
Proof.
  destruct (batch_without_reports PlainSum sample_service
              [VDict plain_message; VDict (message_for (VStr []))] full_cache)
    as [Hstate _]; [|exact Hstate].
  repeat constructor; intros d Hd; inversion Hd; subst; reflexivity.
Defined.

(** ** The route *)

Section RouteProperties.

Variable impl : sum_impl.
Variable requests_get : pyval -> http_result.

Lemma fetch_messages_cases (r : http_result) :
  (exists messages, fetch_messages r = inl messages)
  \/ fetch_messages r = inr (MessagesException MessagesRequestFailed)
  \/ fetch_messages r = inr (Resolution AttributeError).
Proof.
  unfold fetch_messages, fetch_messages_try.
  destruct r as [status_code json|]; [|by auto].
  destruct ((400 <=? status_code) && (status_code <? 600)); [by auto|].
  destruct json as [[|b|x|s|items|d]|]; eauto.
Qed.


(** X24: the route never answers 503.  Its handler for
    [RequestException] cannot be reached: [fetch_messages] and
    [fetch_report] turn every such exception into a plain [Exception],
    which leaves the view function unhandled. *)
Theorem usage_never_unavailable (messages_response : http_result) (st : lru_cache) :
  fst (usage impl requests_get messages_response st) <> Unavailable.
Proof.
  unfold usage.
  destruct (fetch_messages_cases messages_response) as [[messages ->]|[->| ->]];
    [|done|done].
  destruct (sized messages); [|done].
  destruct (process_messages impl requests_get (iterate messages) st) as [[us|e] st'];
    [done|by destruct e].
Qed.

(** X25: when the request for the messages fails (no response, a status
    from 400 to 599, or a body that is not JSON), the route ends with the
    unhandled [Exception] of [fetch_messages]; no report is looked up. *)
Theorem messages_failure_unhandled (messages_response : http_result) (st : lru_cache) :
  messages_response = RequestException
  \/ (exists status_code json,
        messages_response = Response status_code json
        /\ (400 <= status_code < 600 \/ json = None)) ->
  usage impl requests_get messages_response st
  = (Unhandled (MessagesException MessagesRequestFailed), st).
Proof.
  intros [->|(status_code & json & -> & Hfail)]; [done|].
  unfold usage, fetch_messages, fetch_messages_try.
  destruct ((400 <=? status_code) && (status_code <? 600)) eqn:Hstatus; [done|].
  destruct Hfail as [Hrange| ->]; [|done].
  apply andb_false_iff in Hstatus as [Hlow|Hhigh]; [apply Z.leb_gt in Hlow|apply Z.ltb_ge in Hhigh];
    lia.
Qed.

(** X26: when the body of the messages response is an object without
    [messages], the batch is empty: the route answers 200 with an empty
    usage list and leaves the cache alone. *)
Theorem no_messages_empty_usage (status_code : Z) (response_data : gmap string pyval)
    (st : lru_cache) :
  ~ (400 <= status_code < 600) ->
  response_data !! "messages" = None ->
  usage impl requests_get (Response status_code (Some (VDict response_data))) st
  = (Ok [], st).
Proof.
  intros Hstatus Hnone. unfold usage, fetch_messages, fetch_messages_try.
  destruct ((400 <=? status_code) && (status_code <? 600)) eqn:Hrange.
  - apply andb_true_iff in Hrange as [Hlow Hhigh].
    apply Z.leb_le in Hlow. apply Z.ltb_lt in Hhigh. lia.
  - by rewrite Hnone.
Qed.


End RouteProperties.

Lemma messages_failure_unhandled_witness :
  usage PlainSum sample_service (Response 500 None) empty_cache
  = (Unhandled (MessagesException MessagesRequestFailed), empty_cache).
Proof.
  apply (messages_failure_unhandled PlainSum sample_service (Response 500 None) empty_cache).
  right. exists 500, None. split; [reflexivity|]. left. lia.
Defined.

Lemma no_messages_empty_usage_witness :
  usage PlainSum sample_service no_messages empty_cache = (Ok [], empty_cache).
Proof.
  apply (no_messages_empty_usage PlainSum sample_service 200 ∅ empty_cache);
    [lia|reflexivity].
Defined.

